(** * Navigation guidance of the guiding robot: model and properties

    Shallow embedding of the decision logic of
    - [backend/robot_controller.py] (class [RobotController]),
    - [backend/main.py] (classes [AudioSystem], [VoiceNavigator] and the
      [/navigation/start] endpoint),
    - [home_navigator.py] ([bearing_to_direction]).

    Numbers.  Python floats are idealised as exact rationals ([Q]): [+], [-],
    [*], [/], comparisons, [%], [abs] and [round] have their exact meaning.
    The transcendental functions of Python's [math] module are not
    rationals-to-rationals functions; they are taken as a parameter
    ([MathLib]) and every theorem holds for all of them.

    Effects.  Replies of the remote services (GPS, heading, reverse
    geocoding), the clock and the random generator are inputs of the
    functions that consume them; objects are records threaded through the
    methods that mutate them. *)

From Stdlib Require Import QArith Qabs Qround ZArith List String Ascii Bool.
From Stdlib Require Import DecimalString Lia Lqa.
Import ListNotations.

Local Open Scope Q_scope.

(** ** Python numerics on rationals *)

Module PyNum.

(** [a < b] as a boolean *)
Definition ltb (a b : Q) : bool :=
  match Qcompare a b with Lt => true | _ => false end.

(** [a > b] *)
Definition gtb (a b : Q) : bool := ltb b a.

(** [a >= b] *)
Definition geb (a b : Q) : bool := negb (ltb a b).

(** [x % m]: the remainder has the sign of the divisor,
    [x - m * floor (x / m)] *)
Definition py_mod (x m : Q) : Q := x - m * inject_Z (Qfloor (x / m)).

(** [round(x)] with one argument: nearest integer, ties to the even one *)
Definition py_round (x : Q) : Z :=
  let f := Qfloor x in
  let r := x - inject_Z f in
  match Qcompare r (1 # 2) with
  | Lt => f
  | Gt => (f + 1)%Z
  | Eq => if Z.even f then f else (f + 1)%Z
  end.

(** [x ** 2] *)
Definition sq (x : Q) : Q := x * x.

(** Truth value of a float: [0.0] is falsy *)
Definition truthy (x : Q) : bool := negb (Qeq_bool x 0).

End PyNum.

(** ** The [math] module, as a parameter *)

Module MathLib.
Record t : Type := {
  radians : Q -> Q;
  degrees : Q -> Q;
  sin : Q -> Q;
  cos : Q -> Q;
  sqrt : Q -> Q;
  atan2 : Q -> Q -> Q
}.
End MathLib.
Export MathLib(radians, degrees, sin, cos, sqrt, atan2).

(** A position dictionary: [{"lat", "lng"}] *)
Module GeoPoint.
Record t : Type := { lat : Q; lng : Q }.
End GeoPoint.

(** ** backend/robot_controller.py *)

Module Robot.
Import PyNum.

(** The strings ['forward'], ['left'], ['right'], ['arrived'], ['stopped']
    written to [navigation_direction]. *)
Inductive Direction : Type := Forward | Left | Right | Arrived | Stopped.

Record RobotController : Type := {
  current_gps : GeoPoint.t;
  destination : option GeoPoint.t;
  is_navigating : bool;
  current_heading : Q;
  last_update_time : Q
}.

Definition DESTINATION_THRESHOLD : Q := 5.
Definition HEADING_TOLERANCE : Q := 15.
Definition UPDATE_INTERVAL : Q := 2.

(** [RobotController.__init__] *)
Definition init : RobotController :=
  {| current_gps := {| GeoPoint.lat := 0; GeoPoint.lng := 0 |};
     destination := None;
     is_navigating := false;
     current_heading := 0;
     last_update_time := 0 |}.

Definition set_current_gps (g : GeoPoint.t) (rc : RobotController) :=
  {| current_gps := g; destination := destination rc;
     is_navigating := is_navigating rc;
     current_heading := current_heading rc;
     last_update_time := last_update_time rc |}.

Definition set_destination (d : option GeoPoint.t) (rc : RobotController) :=
  {| current_gps := current_gps rc; destination := d;
     is_navigating := is_navigating rc;
     current_heading := current_heading rc;
     last_update_time := last_update_time rc |}.

Definition set_is_navigating (b : bool) (rc : RobotController) :=
  {| current_gps := current_gps rc; destination := destination rc;
     is_navigating := b;
     current_heading := current_heading rc;
     last_update_time := last_update_time rc |}.

Definition set_current_heading (h : Q) (rc : RobotController) :=
  {| current_gps := current_gps rc; destination := destination rc;
     is_navigating := is_navigating rc;
     current_heading := h;
     last_update_time := last_update_time rc |}.

Definition set_last_update_time (t : Q) (rc : RobotController) :=
  {| current_gps := current_gps rc; destination := destination rc;
     is_navigating := is_navigating rc;
     current_heading := current_heading rc;
     last_update_time := t |}.

(** The heading a decision uses: the one just read, else the last known
    ([if current_heading is None: current_heading = self.current_heading]) *)
Definition heading_in_use (heading_reply : option Q) (rc : RobotController) : Q :=
  match heading_reply with
  | Some h => h
  | None => current_heading rc
  end.

Section WithMath.
Variable m : MathLib.t.

(** Haversine distance in metres *)
Definition calculate_distance (lat1 lng1 lat2 lng2 : Q) : Q :=
  let R := 6371000 in
  let lat1_rad := radians m lat1 in
  let lat2_rad := radians m lat2 in
  let delta_lat := radians m (lat2 - lat1) in
  let delta_lng := radians m (lng2 - lng1) in
  let a := sq (sin m (delta_lat / 2))
           + cos m lat1_rad * cos m lat2_rad * sq (sin m (delta_lng / 2)) in
  let c := 2 * atan2 m (sqrt m a) (sqrt m (1 - a)) in
  R * c.

(** Initial bearing from point 1 to point 2, degrees *)
Definition calculate_bearing (lat1 lng1 lat2 lng2 : Q) : Q :=
  let lat1_rad := radians m lat1 in
  let lat2_rad := radians m lat2 in
  let delta_lng := radians m (lng2 - lng1) in
  let y := sin m delta_lng * cos m lat2_rad in
  let x := cos m lat1_rad * sin m lat2_rad
           - sin m lat1_rad * cos m lat2_rad * cos m delta_lng in
  let bearing := atan2 m y x in
  py_mod (degrees m bearing + 360) 360.

(** [get_gps_from_firebase]: [reply] is the position read from the
    database, [None] when the request fails or the record lacks a
    coordinate. *)
Definition get_gps_from_firebase (reply : option GeoPoint.t) (rc : RobotController)
  : option GeoPoint.t * RobotController :=
  match reply with
  | Some g => (Some g, set_current_gps g rc)
  | None => (None, rc)
  end.

(** [get_heading_from_firebase]: [reply] is the heading read from the
    database, [None] when the request fails or the value is null. *)
Definition get_heading_from_firebase (reply : option Q) (rc : RobotController)
  : option Q * RobotController :=
  match reply with
  | Some h => (Some h, set_current_heading h rc)
  | None => (None, rc)
  end.

(** [(target_bearing - current_heading + 180) % 360 - 180] *)
Definition angle_diff (target_bearing current_heading : Q) : Q :=
  py_mod (target_bearing - current_heading + 180) 360 - 180.

Definition calculate_next_direction
    (gps_reply : option GeoPoint.t) (heading_reply : option Q)
    (rc : RobotController) : option Direction * RobotController :=
  let (gps, rc1) := get_gps_from_firebase gps_reply rc in
  match gps, destination rc1 with
  | Some g, Some dest =>
      let distance :=
        calculate_distance (GeoPoint.lat g) (GeoPoint.lng g)
          (GeoPoint.lat dest) (GeoPoint.lng dest) in
      if ltb distance DESTINATION_THRESHOLD then (Some Arrived, rc1)
      else
        let target_bearing :=
          calculate_bearing (GeoPoint.lat g) (GeoPoint.lng g)
            (GeoPoint.lat dest) (GeoPoint.lng dest) in
        let (heading, rc2) := get_heading_from_firebase heading_reply rc1 in
        let current_heading :=
          match heading with
          | Some h => h
          | None => current_heading rc2
          end in
        let d := angle_diff target_bearing current_heading in
        if ltb (Qabs d) HEADING_TOLERANCE then (Some Forward, rc2)
        else if gtb d 0 then (Some Right, rc2)
        else (Some Left, rc2)
  | _, _ => (None, rc1)
  end.

(** What one turn of the navigation loop reads from the outside: the clock,
    the replies of the two database reads and whether the write succeeds. *)
Record Tick : Type := {
  now : Q;
  gps_reply : option GeoPoint.t;
  heading_reply : option Q;
  put_ok : bool
}.

(** [update_direction_to_firebase]: the command is sent to
    [navigation_direction]; [sink] lists the commands sent so far, oldest
    first, and [ok] tells whether the database accepted the write. *)
Definition update_direction_to_firebase
    (direction : Direction) (ok : bool) (sink : list Direction)
  : bool * list Direction :=
  (ok, sink ++ [direction]).

(** The body of [while self.is_navigating], for one turn.  The boolean is
    [true] when control goes back to the loop condition ([continue] or the end
    of the body) and [false] on [break]. *)
Definition loop_body (t : Tick) (rc : RobotController) (sink : list Direction)
  : bool * RobotController * list Direction :=
  let current_time := now t in
  if geb (current_time - last_update_time rc) UPDATE_INTERVAL then
    let (direction, rc1) :=
      calculate_next_direction (gps_reply t) (heading_reply t) rc in
    match direction with
    | None => (true, rc1, sink)
    | Some d =>
        let (_, sink1) := update_direction_to_firebase d (put_ok t) sink in
        match d with
        | Arrived => (false, set_is_navigating false rc1, sink1)
        | _ => (true, set_last_update_time current_time rc1, sink1)
        end
    end
  else (true, rc, sink).

(** The [while] loop of [start_navigation], one [Tick] per turn.  [Some true]
    is the normal return of the method; [None] means the loop is still
    running when the supplied turns are used up. *)
Fixpoint navigation_loop (ticks : list Tick) (rc : RobotController)
    (sink : list Direction) : option bool * RobotController * list Direction :=
  if negb (is_navigating rc) then (Some true, rc, sink)
  else
    match ticks with
    | [] => (None, rc, sink)
    | t :: ts =>
        match loop_body t rc sink with
        | (true, rc1, sink1) => navigation_loop ts rc1 sink1
        | (false, rc1, sink1) => (Some true, rc1, sink1)
        end
    end.

Definition start_navigation (dest_lat dest_lng : Q)
    (initial_gps_reply : option GeoPoint.t) (ticks : list Tick)
    (rc : RobotController) (sink : list Direction)
  : option bool * RobotController * list Direction :=
  let destination := {| GeoPoint.lat := dest_lat; GeoPoint.lng := dest_lng |} in
  let rc1 := set_is_navigating true (set_destination (Some destination) rc) in
  let (gps, rc2) := get_gps_from_firebase initial_gps_reply rc1 in
  match gps with
  | None => (Some false, rc2, sink)
  | Some _ => navigation_loop ticks rc2 sink
  end.

Definition stop_navigation (ok : bool) (rc : RobotController)
    (sink : list Direction) : RobotController * list Direction :=
  let rc1 := set_is_navigating false rc in
  let (_, sink1) := update_direction_to_firebase Stopped ok sink in
  (rc1, sink1).

End WithMath.
End Robot.

(** ** backend/main.py: narration queue and pedestrian guidance *)

(** A waypoint dictionary: [{"lat", "lng", "instruction", "index"}] *)
Module Waypoint.
Record t : Type := {
  lat : Q;
  lng : Q;
  instruction : string;
  index : nat
}.
End Waypoint.

(** Python's string and formatting primitives used by the messages *)
Module PyStr.
Import PyNum.
Local Open Scope string_scope.

(** [s.replace(old, new)] for a non-empty [old]: occurrences are replaced
    from the left, without overlap.  [skip] counts the characters of a
    match that are still to be dropped. *)
Fixpoint replace_from (old new : string) (skip : nat) (s : string) : string :=
  match s with
  | EmptyString => EmptyString
  | String c rest =>
      match skip with
      | S k => replace_from old new k rest
      | O =>
          if String.prefix old s
          then new ++ replace_from old new (String.length old - 1) rest
          else String c (replace_from old new 0 rest)
      end
  end.

Definition replace (old new s : string) : string := replace_from old new 0 s.

(** The last character but one, by which two messages are told apart *)
Fixpoint penultimate (s : string) : option ascii :=
  match s with
  | EmptyString => None
  | String c rest =>
      match rest with
      | String _ EmptyString => Some c
      | _ => penultimate rest
      end
  end.

(** Decimal digits of a natural number *)
Definition digits (n : Z) : string :=
  NilZero.string_of_uint (N.to_uint (Z.to_N n)).

Fixpoint zeros (k : nat) : string :=
  match k with
  | O => ""
  | S k' => "0" ++ zeros k'
  end.

(** [f"{x:.<prec>f}"]: [x] rounded half-to-even to [prec] decimals *)
Definition format_f (prec : nat) (x : Q) : string :=
  let scale := (10 ^ Z.of_nat prec)%Z in
  let scaled := py_round (Qabs x * inject_Z scale) in
  let whole := digits (scaled / scale) in
  let frac := digits (scaled mod scale) in
  let sign := if ltb x 0 then "-" else "" in
  match prec with
  | O => sign ++ whole
  | _ => sign ++ whole ++ "." ++ zeros (prec - String.length frac) ++ frac
  end.

End PyStr.

Module Voice.
Import PyNum PyStr.
Local Open Scope string_scope.

(** *** [queue.Queue] *)

(** [maxsize = 0] means that the queue has no upper bound. *)
Record PyQueue : Type := {
  maxsize : nat;
  items : list string
}.

(** [Queue()] *)
Definition Queue : PyQueue := {| maxsize := 0; items := [] |}.

(** [Queue.full()] *)
Definition full (q : PyQueue) : bool :=
  (0 <? maxsize q)%nat && (maxsize q <=? List.length (items q))%nat.

(** [put(item, timeout=...)]: [None] stands for the exception [queue.Full],
    raised once the timeout has expired on a full queue. *)
Definition put (item : string) (q : PyQueue) : option PyQueue :=
  if full q then None
  else Some {| maxsize := maxsize q; items := (items q ++ [item])%list |}.

(** *** [AudioSystem] *)

Record AudioSystem : Type := {
  enabled : bool;
  audio_queue : PyQueue;
  audio_worker_running : bool;
  currently_speaking : bool
}.

(** [AudioSystem.__init__] *)
Definition AudioSystem_init (enabled : bool) : AudioSystem :=
  {| enabled := enabled;
     audio_queue := Queue;
     audio_worker_running := true;
     currently_speaking := false |}.

Definition set_audio_queue (q : PyQueue) (a : AudioSystem) : AudioSystem :=
  {| enabled := enabled a;
     audio_queue := q;
     audio_worker_running := audio_worker_running a;
     currently_speaking := currently_speaking a |}.

(** [speak]: the method returns [None] on every path; a [queue.Full] raised
    by [put] is caught and logged inside the method. *)
Definition speak (message : string) (a : AudioSystem) : AudioSystem :=
  if negb (enabled a) || (String.length message =? 0)%nat then a
  else
    match put message (audio_queue a) with
    | Some q => set_audio_queue q a
    | None => a
    end.

(** [clear_queue]: [get_nowait] until the queue is empty *)
Definition clear_queue (a : AudioSystem) : AudioSystem :=
  set_audio_queue {| maxsize := maxsize (audio_queue a); items := [] |} a.

(** [get(timeout=1)]: the oldest item and the rest of the queue; [None]
    stands for the exception [queue.Empty], raised once the timeout has
    expired on an empty queue. *)
Definition get (q : PyQueue) : option (string * PyQueue) :=
  match items q with
  | [] => None
  | message :: rest => Some (message, {| maxsize := maxsize q; items := rest |})
  end.

(** One turn of the loop of [_audio_worker], as long as [shutdown] has not
    put its end signal in the queue: the message taken from the queue is
    spoken ([Some message]) and [currently_speaking], raised while it is
    spoken, is lowered again; on an empty queue the turn does nothing. *)
Definition audio_worker_turn (a : AudioSystem) : option string * AudioSystem :=
  if audio_worker_running a then
    match get (audio_queue a) with
    | Some (message, q) =>
        (Some message,
         {| enabled := enabled a;
            audio_queue := q;
            audio_worker_running := audio_worker_running a;
            currently_speaking := false |})
    | None => (None, a)
    end
  else (None, a).

(** [n] turns of the worker: the messages spoken, oldest first *)
Fixpoint audio_worker_turns (n : nat) (a : AudioSystem)
  : list string * AudioSystem :=
  match n with
  | O => ([], a)
  | S n' =>
      let (spoken, a1) := audio_worker_turn a in
      let (later, a2) := audio_worker_turns n' a1 in
      (match spoken with
       | Some message => message :: later
       | None => later
       end, a2)
  end.

(** *** [VoiceNavigator] *)

Record VoiceNavigator : Type := {
  audio_system : AudioSystem;
  current_gps : option GeoPoint.t;
  destination : option GeoPoint.t;
  route_instructions : list string;
  current_instruction_index : nat;
  navigation_active : bool;
  last_announcement_time : Q;
  last_spoken_instruction : string;
  waypoints : list Waypoint.t;
  current_waypoint_index : nat
}.

Definition GUIDANCE_DISTANCE_THRESHOLD : Q := 20.
Definition OFF_ROUTE_THRESHOLD : Q := 50.

(** [VoiceNavigator.__init__] *)
Definition VoiceNavigator_init : VoiceNavigator :=
  {| audio_system := AudioSystem_init true;
     current_gps := None;
     destination := None;
     route_instructions := [];
     current_instruction_index := 0;
     navigation_active := false;
     last_announcement_time := 0;
     last_spoken_instruction := "";
     waypoints := [];
     current_waypoint_index := 0 |}.

Definition set_audio_system (a : AudioSystem) (v : VoiceNavigator) :=
  {| audio_system := a; current_gps := current_gps v;
     destination := destination v; route_instructions := route_instructions v;
     current_instruction_index := current_instruction_index v;
     navigation_active := navigation_active v;
     last_announcement_time := last_announcement_time v;
     last_spoken_instruction := last_spoken_instruction v;
     waypoints := waypoints v;
     current_waypoint_index := current_waypoint_index v |}.

Definition set_last_announcement_time (t : Q) (v : VoiceNavigator) :=
  {| audio_system := audio_system v; current_gps := current_gps v;
     destination := destination v; route_instructions := route_instructions v;
     current_instruction_index := current_instruction_index v;
     navigation_active := navigation_active v;
     last_announcement_time := t;
     last_spoken_instruction := last_spoken_instruction v;
     waypoints := waypoints v;
     current_waypoint_index := current_waypoint_index v |}.

Definition set_last_spoken_instruction (i : string) (v : VoiceNavigator) :=
  {| audio_system := audio_system v; current_gps := current_gps v;
     destination := destination v; route_instructions := route_instructions v;
     current_instruction_index := current_instruction_index v;
     navigation_active := navigation_active v;
     last_announcement_time := last_announcement_time v;
     last_spoken_instruction := i;
     waypoints := waypoints v;
     current_waypoint_index := current_waypoint_index v |}.

Definition set_current_waypoint_index (i : nat) (v : VoiceNavigator) :=
  {| audio_system := audio_system v; current_gps := current_gps v;
     destination := destination v; route_instructions := route_instructions v;
     current_instruction_index := current_instruction_index v;
     navigation_active := navigation_active v;
     last_announcement_time := last_announcement_time v;
     last_spoken_instruction := last_spoken_instruction v;
     waypoints := waypoints v;
     current_waypoint_index := i |}.

(** The audio system as [VoiceNavigator.__init__] builds it: enabled, over
    a queue without bound.  No method changes either attribute. *)
Definition ready (v : VoiceNavigator) : Prop :=
  enabled (audio_system v) = true
  /\ maxsize (audio_queue (audio_system v)) = 0%nat.

(** The messages waiting in the queue *)
Definition pending (v : VoiceNavigator) : list string :=
  items (audio_queue (audio_system v)).

(** [self.audio_system.speak(message)] *)
Definition say (message : string) (v : VoiceNavigator) : VoiceNavigator :=
  set_audio_system (speak message (audio_system v)) v.

(** [set_current_location] *)
Definition set_current_location (lat lng : Q) (v : VoiceNavigator) :=
  {| audio_system := audio_system v;
     current_gps := Some {| GeoPoint.lat := lat; GeoPoint.lng := lng |};
     destination := destination v; route_instructions := route_instructions v;
     current_instruction_index := current_instruction_index v;
     navigation_active := navigation_active v;
     last_announcement_time := last_announcement_time v;
     last_spoken_instruction := last_spoken_instruction v;
     waypoints := waypoints v;
     current_waypoint_index := current_waypoint_index v |}.

Definition directions : list string :=
  [ "north"; "north-northeast"; "northeast"; "east-northeast";
    "east"; "east-southeast"; "southeast"; "south-southeast";
    "south"; "south-southwest"; "southwest"; "west-southwest";
    "west"; "west-northwest"; "northwest"; "north-northwest" ].

(** [round(bearing / 22.5) % 16] *)
Definition direction_index (bearing : Q) : Z :=
  (py_round (bearing / (45 # 2)) mod 16)%Z.

(** [bearing_to_direction]: [directions[index]]; the index is always that of
    an element of the list ([direction_index_range]), the default value of
    [nth] is never returned. *)
Definition bearing_to_direction (bearing : Q) : string :=
  nth (Z.to_nat (direction_index bearing)) directions "".

(** The four [replace] calls that strip the markup of an instruction *)
Definition clean (instruction : string) : string :=
  replace "</div>" " "
    (replace "<div>" " " (replace "</b>" "" (replace "<b>" "" instruction))).

(** [enumerate(l)], counting from [i] *)
Fixpoint enumerate_from {A : Type} (i : nat) (l : list A) : list (nat * A) :=
  match l with
  | [] => []
  | x :: l' => (i, x) :: enumerate_from (S i) l'
  end.

(** The waypoint built for instruction number [i] out of [n], on the way
    from [cur] to [(lat, lng)] *)
Definition make_waypoint (cur : option GeoPoint.t) (lat lng : Q) (n : nat)
    (e : nat * string) : Waypoint.t :=
  let (i, instruction) := e in
  let progress := inject_Z (Z.of_nat i + 1) / inject_Z (Z.of_nat n) in
  let waypoint_lat :=
    match cur with
    | Some g => GeoPoint.lat g + (lat - GeoPoint.lat g) * progress
    | None => lat
    end in
  let waypoint_lng :=
    match cur with
    | Some g => GeoPoint.lng g + (lng - GeoPoint.lng g) * progress
    | None => lng
    end in
  {| Waypoint.lat := waypoint_lat;
     Waypoint.lng := waypoint_lng;
     Waypoint.instruction := instruction;
     Waypoint.index := i |}.

(** [generate_sample_route_instructions]; [rand] is the value drawn by
    [random.randint(3, 7)].  The two coordinates are not used. *)
Definition sample_instructions : list string :=
  [ "Head southeast on your current street";
    "Turn right at the next intersection";
    "Continue straight for 200 meters";
    "Turn left at the traffic light";
    "Walk straight past the bus stop";
    "Turn right onto the main road";
    "Continue for 150 meters";
    "Turn left at the roundabout";
    "Walk straight toward the destination";
    "Your destination will be on the right" ].

Definition generate_sample_route_instructions (rand : nat) : list string :=
  let num_instructions := Nat.min rand (List.length sample_instructions) in
  firstn num_instructions sample_instructions.

(** The JSON body of [POST /navigation/start].  A coordinate that is absent
    or [null] is [None]; [route_instructions] is the empty list when the key
    is absent. *)
Record StartRequest : Type := {
  req_lat : option Q;
  req_lng : option Q;
  req_route_instructions : list string;
  req_current_location : option (option Q * option Q)
}.

Inductive Response : Type :=
| ErrorResponse (status_code : Z) (error : string)
| StartedResponse (destination : GeoPoint.t)
    (current_location : option GeoPoint.t)
    (route_instructions_count waypoints_count : nat).

Section WithServices.
Variable m : MathLib.t.

(** Reply of the reverse-geocoding service for a position: the place name
    that [get_location_name] assembles from it, [None] when the request
    fails or the reply names nothing. *)
Variable geocode : Q -> Q -> option string.

Definition calculate_distance (lat1 lng1 lat2 lng2 : Q) : Q :=
  let R := 6371000 in
  let lat1_rad := radians m lat1 in
  let lat2_rad := radians m lat2 in
  let delta_lat := radians m (lat2 - lat1) in
  let delta_lng := radians m (lng2 - lng1) in
  let a := sq (sin m (delta_lat / 2))
           + cos m lat1_rad * cos m lat2_rad * sq (sin m (delta_lng / 2)) in
  let c := 2 * atan2 m (sqrt m a) (sqrt m (1 - a)) in
  let distance := R * c in
  distance.

Definition calculate_bearing (lat1 lng1 lat2 lng2 : Q) : Q :=
  let lat1_rad := radians m lat1 in
  let lat2_rad := radians m lat2 in
  let delta_lng := radians m (lng2 - lng1) in
  let y := sin m delta_lng * cos m lat2_rad in
  let x := cos m lat1_rad * sin m lat2_rad
           - sin m lat1_rad * cos m lat2_rad * cos m delta_lng in
  let bearing := atan2 m y x in
  let bearing := degrees m bearing in
  py_mod (bearing + 360) 360.

(** [get_location_name]: the name given by the service, else the
    coordinates with four decimals.  The method catches every exception of
    the request itself. *)
Definition get_location_name (lat lng : Q) : string :=
  match geocode lat lng with
  | Some location_name => location_name
  | None => "location at " ++ format_f 4 lat ++ ", " ++ format_f 4 lng
  end.

Definition set_destination (lat lng : Q) (route_instructions : list string)
    (v : VoiceNavigator) : VoiceNavigator :=
  let n := List.length route_instructions in
  let new_waypoints :=
    match route_instructions with
    | _ :: _ =>
        map (make_waypoint (current_gps v) lat lng n)
            (enumerate_from 0 route_instructions)
    | [] =>
        [ {| Waypoint.lat := lat; Waypoint.lng := lng;
             Waypoint.instruction := "Arrive at destination";
             Waypoint.index := 0 |} ]
    end in
  let v1 :=
    {| audio_system := audio_system v;
       current_gps := current_gps v;
       destination := Some {| GeoPoint.lat := lat; GeoPoint.lng := lng |};
       route_instructions := route_instructions;
       current_instruction_index := 0;
       navigation_active := true;
       last_announcement_time := last_announcement_time v;
       last_spoken_instruction := "";
       waypoints := new_waypoints;
       current_waypoint_index := 0 |} in
  let destination_name := get_location_name lat lng in
  let initial_message :=
    match current_gps v1 with
    | Some g =>
        "Live navigation started! I can see you are currently at "
        ++ get_location_name (GeoPoint.lat g) (GeoPoint.lng g) ++ ". "
    | None => "Live navigation started! "
    end in
  let initial_message :=
    initial_message ++ "Your destination is " ++ destination_name ++ ". " in
  let initial_message :=
    match route_instructions with
    | _ :: _ =>
        initial_message ++ "The journey has " ++ digits (Z.of_nat n)
        ++ " steps. I will guide you turn by turn. Please start walking and I will provide detailed directions."
    | [] =>
        initial_message
        ++ "I will guide you directly to your destination. Please start walking and I will provide turn-by-turn directions based on your GPS location."
    end in
  say initial_message v1.

(** The state after the [Completed] branch of the guidance *)
Definition finish (v : VoiceNavigator) : VoiceNavigator :=
  {| audio_system := audio_system v;
     current_gps := current_gps v;
     destination := None;
     route_instructions := [];
     current_instruction_index := current_instruction_index v;
     navigation_active := false;
     last_announcement_time := last_announcement_time v;
     last_spoken_instruction := last_spoken_instruction v;
     waypoints := [];
     current_waypoint_index := 0 |}.

(** ["Next instruction: {clean_instruction}. Head {direction}."] *)
Definition next_instruction_message (instruction : string)
    (g : GeoPoint.t) (next_waypoint : Waypoint.t) : string :=
  let clean_instruction := clean instruction in
  let bearing :=
    calculate_bearing (GeoPoint.lat g) (GeoPoint.lng g)
      (Waypoint.lat next_waypoint) (Waypoint.lng next_waypoint) in
  let direction := bearing_to_direction bearing in
  "Next instruction: " ++ clean_instruction ++ ". Head " ++ direction ++ ".".

(** The off-route warning.  [get_location_name] does not raise, the [except]
    variant of the message is never built. *)
Definition off_route_message (g : GeoPoint.t) (current_waypoint : Waypoint.t)
    (distance_to_waypoint : Q) : string :=
  let bearing :=
    calculate_bearing (GeoPoint.lat g) (GeoPoint.lng g)
      (Waypoint.lat current_waypoint) (Waypoint.lng current_waypoint) in
  let direction := bearing_to_direction bearing in
  let current_location := get_location_name (GeoPoint.lat g) (GeoPoint.lng g) in
  "You may be off route at " ++ current_location ++ ". Head " ++ direction
  ++ " to get back on track. The waypoint is "
  ++ format_f 0 distance_to_waypoint ++ " meters away.".

(** The progress update of the on-route branch *)
Definition progress_message (g : GeoPoint.t) (current_waypoint : Waypoint.t)
    (distance_to_waypoint : Q) : string :=
  let bearing :=
    calculate_bearing (GeoPoint.lat g) (GeoPoint.lng g)
      (Waypoint.lat current_waypoint) (Waypoint.lng current_waypoint) in
  let direction := bearing_to_direction bearing in
  let current_location := get_location_name (GeoPoint.lat g) (GeoPoint.lng g) in
  let location_prefix := "You are at " ++ current_location ++ ". " in
  let guidance_msg :=
    if ltb distance_to_waypoint 30
    then location_prefix ++ "Almost at waypoint. Continue " ++ direction ++ ". "
         ++ format_f 0 distance_to_waypoint ++ " meters ahead."
    else location_prefix ++ "Continue " ++ direction ++ ". Next waypoint is "
         ++ format_f 0 distance_to_waypoint ++ " meters away." in
  let current_instruction := Waypoint.instruction current_waypoint in
  if (String.length current_instruction =? 0)%nat then guidance_msg
  else
    clean current_instruction ++ " From " ++ current_location ++ ", continue "
    ++ direction ++ ". " ++ format_f 0 distance_to_waypoint ++ " meters ahead.".

(** [provide_navigation_guidance]; [current_time] is the value returned by
    [time.time()]. *)
Definition provide_navigation_guidance (current_time : Q) (v : VoiceNavigator)
  : VoiceNavigator :=
  match navigation_active v, current_gps v, waypoints v with
  | true, Some g, _ :: _ =>
      if (List.length (waypoints v) <=? current_waypoint_index v)%nat then
        let v1 := set_audio_system (clear_queue (audio_system v)) v in
        let v2 :=
          say "Congratulations! You have reached your destination. Navigation complete." v1 in
        finish v2
      else
        match nth_error (waypoints v) (current_waypoint_index v) with
        | None => v
        | Some current_waypoint =>
            let distance_to_waypoint :=
              calculate_distance (GeoPoint.lat g) (GeoPoint.lng g)
                (Waypoint.lat current_waypoint) (Waypoint.lng current_waypoint) in
            if ltb distance_to_waypoint GUIDANCE_DISTANCE_THRESHOLD then
              let v1 :=
                set_current_waypoint_index (current_waypoint_index v + 1) v in
              match nth_error (waypoints v1) (current_waypoint_index v1) with
              | Some next_waypoint =>
                  let instruction := Waypoint.instruction next_waypoint in
                  if negb (String.length instruction =? 0)%nat
                     && negb (String.eqb instruction (last_spoken_instruction v1))
                  then
                    let guidance :=
                      next_instruction_message instruction g next_waypoint in
                    let v2 := say guidance v1 in
                    let v3 := set_last_spoken_instruction instruction v2 in
                    set_last_announcement_time current_time v3
                  else v1
              | None =>
                  let v2 := say "You are approaching your final destination!" v1 in
                  set_last_announcement_time current_time v2
              end
            else if gtb distance_to_waypoint OFF_ROUTE_THRESHOLD then
              if gtb (current_time - last_announcement_time v) 10 then
                let off_route_msg :=
                  off_route_message g current_waypoint distance_to_waypoint in
                let v1 := say off_route_msg v in
                set_last_announcement_time current_time v1
              else v
            else
              let min_interval :=
                if ltb distance_to_waypoint 30 then 5
                else if ltb distance_to_waypoint 100 then 8
                else 15 in
              if gtb (current_time - last_announcement_time v) min_interval then
                let guidance_msg :=
                  progress_message g current_waypoint distance_to_waypoint in
                let v1 := say guidance_msg v in
                set_last_announcement_time current_time v1
              else v
        end
  | _, _, _ => v
  end.

(** [POST /navigation/start]; [voice_navigator] is the module-level
    navigator, [None] when no API key was configured. *)
Definition start_navigation (rand : nat) (request_data : StartRequest)
    (voice_navigator : option VoiceNavigator)
  : Response * option VoiceNavigator :=
  match voice_navigator with
  | None =>
      (ErrorResponse 500 "Voice Navigator not initialized. Check Gemini API key.",
       None)
  | Some v =>
      match req_lat request_data, req_lng request_data with
      | Some lat, Some lng =>
          let v1 :=
            match req_current_location request_data with
            | Some (Some clat, Some clng) =>
                if truthy clat && truthy clng
                then set_current_location clat clng v
                else v
            | _ => v
            end in
          let route_instructions :=
            match req_route_instructions request_data with
            | [] => generate_sample_route_instructions rand
            | l => l
            end in
          let v2 := set_destination lat lng route_instructions v1 in
          (StartedResponse {| GeoPoint.lat := lat; GeoPoint.lng := lng |}
             (current_gps v2)
             (List.length route_instructions)
             (List.length (waypoints v2)),
           Some v2)
      | _, _ => (ErrorResponse 400 "Missing lat/lng coordinates", Some v)
      end
  end.

(** The answers of [POST /navigation/update-gps] *)
Inductive GpsResponse : Type :=
| GpsError (status_code : Z) (error : string)
| GpsUpdated (current_location : GeoPoint.t) (navigation_active : bool).

(** [POST /navigation/update-gps]; [current_time] is the clock read by the
    guidance when it runs. *)
Definition update_gps_location (current_time : Q) (lat lng : option Q)
    (voice_navigator : option VoiceNavigator)
  : GpsResponse * option VoiceNavigator :=
  match voice_navigator with
  | None => (GpsError 500 "Voice Navigator not initialized", None)
  | Some v =>
      match lat, lng with
      | Some lat, Some lng =>
          let v1 := set_current_location lat lng v in
          let v2 :=
            if navigation_active v1
            then provide_navigation_guidance current_time v1
            else v1 in
          (GpsUpdated {| GeoPoint.lat := lat; GeoPoint.lng := lng |}
             (navigation_active v2),
           Some v2)
      | _, _ => (GpsError 400 "Missing lat/lng coordinates", Some v)
      end
  end.

(** The answers of [POST /navigation/stop] *)
Inductive StopResponse : Type :=
| StopError (status_code : Z) (error : string)
| StoppedResponse (message : string).

(** [POST /navigation/stop] *)
Definition stop_navigation (voice_navigator : option VoiceNavigator)
  : StopResponse * option VoiceNavigator :=
  match voice_navigator with
  | None => (StopError 500 "Voice Navigator not initialized", None)
  | Some v =>
      let v1 :=
        {| audio_system := audio_system v;
           current_gps := current_gps v;
           destination := None;
           route_instructions := [];
           current_instruction_index := 0;
           navigation_active := false;
           last_announcement_time := last_announcement_time v;
           last_spoken_instruction := last_spoken_instruction v;
           waypoints := [];
           current_waypoint_index := 0 |} in
      let v2 := set_audio_system (clear_queue (audio_system v1)) v1 in
      let v3 := say "Navigation stopped." v2 in
      (StoppedResponse "Navigation stopped", Some v3)
  end.

(** The answers of [POST /navigation/test-guidance] *)
Inductive GuidanceResponse : Type :=
| GuidanceError (status_code : Z) (error : string)
| GuidanceTriggered (navigation_active : bool)
    (current_location destination : option GeoPoint.t).

(** [POST /navigation/test-guidance] *)
Definition test_navigation_guidance (current_time : Q)
    (voice_navigator : option VoiceNavigator)
  : GuidanceResponse * option VoiceNavigator :=
  match voice_navigator with
  | None => (GuidanceError 500 "Voice Navigator not initialized", None)
  | Some v =>
      if negb (navigation_active v) then
        (GuidanceError 400 "No active navigation. Start navigation first.",
         Some v)
      else
        let old_time := last_announcement_time v in
        let v1 := set_last_announcement_time 0 v in
        let v2 := provide_navigation_guidance current_time v1 in
        let v3 :=
          if Qeq_bool (last_announcement_time v2) 0
          then set_last_announcement_time old_time v2
          else v2 in
        (GuidanceTriggered (navigation_active v3) (current_gps v3)
           (destination v3),
         Some v3)
  end.

End WithServices.
End Voice.

(** ** home_navigator.py *)

Module Home.
Import PyNum.
Local Open Scope string_scope.

Definition directions : list string :=
  [ "North"; "North-East"; "East"; "South-East";
    "South"; "South-West"; "West"; "North-West" ].

(** [round(bearing / 45) % 8] *)
Definition direction_index (bearing : Q) : Z :=
  (py_round (bearing / 45) mod 8)%Z.

(** [bearing_to_direction]: [directions[idx]] *)
Definition bearing_to_direction (bearing : Q) : string :=
  nth (Z.to_nat (direction_index bearing)) directions "".

End Home.

(** ** backend/main.py: the robot endpoints *)

Module Backend.
Local Open Scope string_scope.

(** The answers of [POST /robot/navigate-to] *)
Inductive NavigateResponse : Type :=
| NavigateError (status_code : Z) (error : string)
| NavigateStarted (destination : GeoPoint.t).

Section WithServices.
Variable geocode : Q -> Q -> option string.

(** [POST /robot/navigate-to].  The second component tells whether the
    navigation thread is started, and with which arguments
    [RobotController.start_navigation] runs in it; the controller itself is
    only read. *)
Definition robot_navigate_to (lat lng : option Q)
    (robot_controller : Robot.RobotController)
    (voice_navigator : option Voice.VoiceNavigator)
  : NavigateResponse * option (Q * Q) * option Voice.VoiceNavigator :=
  match lat, lng with
  | Some lat, Some lng =>
      if Robot.is_navigating robot_controller then
        (NavigateError 409
           "Robot is already navigating. Stop current navigation first.",
         None, voice_navigator)
      else
        let voice_navigator' :=
          match voice_navigator with
          | Some v =>
              let v1 := Voice.set_destination geocode lat lng [] v in
              Some (Voice.say
                      "Robot navigation activated. Calculating path to destination. The robot will receive turn-by-turn directions via Firebase."
                      v1)
          | None => None
          end in
        (NavigateStarted {| GeoPoint.lat := lat; GeoPoint.lng := lng |},
         Some (lat, lng), voice_navigator')
  | _, _ =>
      (NavigateError 400 "Missing lat/lng coordinates", None, voice_navigator)
  end.

(** [POST /robot/stop] *)
Definition robot_stop (ok : bool) (robot_controller : Robot.RobotController)
    (sink : list Robot.Direction)
    (voice_navigator : option Voice.VoiceNavigator)
  : Robot.RobotController * list Robot.Direction
    * option Voice.VoiceNavigator :=
  let (rc, sink1) := Robot.stop_navigation ok robot_controller sink in
  (rc, sink1,
   option_map (Voice.say "Robot navigation stopped.") voice_navigator).

End WithServices.
End Backend.

(** ** A rational stand-in for [math]

    Fixed-point approximations (18 decimals) of the functions of [MathLib],
    used to run the model on concrete positions.  The general theorems do
    not mention it. *)

Module ApproxMath.
Import PyNum.

Definition grid : Z := (10 ^ 18)%Z.

(** [x] truncated to the grid *)
Definition fix18 (x : Q) : Q := Qred (Qfloor (x * inject_Z grid) # Z.to_pos grid).

Definition pi : Q := 3141592653589793 # 1000000000000000.

Definition radians (x : Q) : Q := fix18 (x * pi / 180).
Definition degrees (x : Q) : Q := fix18 (x * 180 / pi).

(** Sum of [n] terms of an alternating power series: the first one is
    [term], and the term after the one of rank [k] is obtained by
    multiplying by [- x2 / ((k + 1) (k + 2))] ([fact = true]: sine and
    cosine) or by [- x2 * k / (k + 2)] ([fact = false]: arctangent). *)
Fixpoint series (fact : bool) (n : nat) (x2 term : Q) (k : Z) : Q :=
  match n with
  | O => 0
  | S n' =>
      let next :=
        if fact
        then fix18 (- term * x2 / inject_Z ((k + 1) * (k + 2)))
        else fix18 (- term * x2 * inject_Z k / inject_Z (k + 2)) in
      Qred (term + series fact n' x2 next (k + 2))
  end.

(** [x] brought back to [[-pi, pi)] *)
Definition wrap (x : Q) : Q := Qred (py_mod (x + pi) (2 * pi) - pi).

Definition sin (x : Q) : Q :=
  let y := wrap x in fix18 (series true 14 (fix18 (y * y)) y 1).

Definition cos (x : Q) : Q :=
  let y := wrap x in fix18 (series true 14 (fix18 (y * y)) 1 0).

Definition sqrt (x : Q) : Q :=
  Qred (Z.sqrt (Qfloor (x * inject_Z (grid * grid))) # Z.to_pos grid).

(** Arctangent of [t] with [0 <= t <= 1]: two halvings of the angle, then
    the power series *)
Definition atan_unit (t : Q) : Q :=
  let half u := fix18 (u / (1 + sqrt (1 + u * u))) in
  let u := half (half t) in
  fix18 (4 * series false 14 (fix18 (u * u)) u 1).

(** Arctangent of [t >= 0] *)
Definition atan_pos (t : Q) : Q :=
  if ltb 1 t then Qred (pi / 2 - atan_unit (fix18 (/ t))) else atan_unit t.

Definition atan (t : Q) : Q :=
  if ltb t 0 then Qred (- atan_pos (- t)) else atan_pos t.

Definition atan2 (y x : Q) : Q :=
  match Qcompare x 0 with
  | Gt => atan (fix18 (y / x))
  | Lt => if ltb y 0 then Qred (atan (fix18 (y / x)) - pi)
          else Qred (atan (fix18 (y / x)) + pi)
  | Eq => match Qcompare y 0 with
          | Gt => Qred (pi / 2)
          | Lt => Qred (- (pi / 2))
          | Eq => 0
          end
  end.

Definition math : MathLib.t :=
  {| MathLib.radians := radians; MathLib.degrees := degrees;
     MathLib.sin := sin; MathLib.cos := cos;
     MathLib.sqrt := sqrt; MathLib.atan2 := atan2 |}.

End ApproxMath.

(** ** Concrete runs

    Positions, controllers and sessions on which the model is run. *)

Module Scenario.
Local Open Scope string_scope.

(** The reverse-geocoding service out of reach: every request fails. *)
Definition offline : Q -> Q -> option string := fun _ _ => None.

(** The destination and three of the positions of
    [test_robot_navigation.py] *)
Definition goal : GeoPoint.t :=
  {| GeoPoint.lat := 6927100 # 1000000; GeoPoint.lng := 79861300 # 1000000 |}.

Definition start : GeoPoint.t :=
  {| GeoPoint.lat := 6927000 # 1000000; GeoPoint.lng := 79861000 # 1000000 |}.

Definition very_close : GeoPoint.t :=
  {| GeoPoint.lat := 6927095 # 1000000; GeoPoint.lng := 79861290 # 1000000 |}.

(** A controller on its way to [goal], last known heading 45 degrees *)
Definition robot : Robot.RobotController :=
  Robot.set_is_navigating true
    (Robot.set_destination (Some goal)
       (Robot.set_current_heading 45 Robot.init)).

(** A turn of the loop at [start], ten seconds after the last update, in
    which the heading cannot be read *)
Definition tick_without_heading : Robot.Tick :=
  {| Robot.now := 10; Robot.gps_reply := Some start;
     Robot.heading_reply := None; Robot.put_ok := true |}.




(** A route of three steps along the equator, the last one without text,
    from longitude 0 to longitude 0.003: the waypoints are at longitudes
    0.001, 0.002 and 0.003, about 111 m apart. *)
Definition route : list string :=
  ["Turn left at the gate"; "Follow the <b>path</b>"; ""].

Definition session_started : Voice.VoiceNavigator :=
  Voice.set_destination offline 0 (3 # 1000) route
    (Voice.set_current_location 0 0 Voice.VoiceNavigator_init).

(** The pedestrian has walked to the first waypoint. *)
Definition at_first_waypoint : Voice.VoiceNavigator :=
  Voice.set_current_location 0 (1 # 1000) session_started.

(** The guidance has run there at time 100, and the pedestrian has walked
    on to the second waypoint. *)
Definition at_second_waypoint : Voice.VoiceNavigator :=
  Voice.set_current_location 0 (2 # 1000)
    (Voice.provide_navigation_guidance ApproxMath.math offline 100
       at_first_waypoint).

(** A turn of the loop at [very_close], ten seconds after the last update *)
Definition tick_very_close : Robot.Tick :=
  {| Robot.now := 10; Robot.gps_reply := Some very_close;
     Robot.heading_reply := Some 71; Robot.put_ok := true |}.

(** A turn of the loop at [start], one second after [tick_without_heading] *)
Definition tick_one_second_later : Robot.Tick :=
  {| Robot.now := 11; Robot.gps_reply := Some start;
     Robot.heading_reply := Some 70; Robot.put_ok := true |}.

(** The destination of [test_navigation.py], sent without route and with
    a current location on the equator *)
Definition request_from_equator : Voice.StartRequest :=
  {| Voice.req_lat := Some (72936 # 10000);
     Voice.req_lng := Some (806428 # 10000);
     Voice.req_route_instructions := [];
     Voice.req_current_location := Some (Some 0, Some (80 # 1)) |}.


(** A session without route, started at its destination *)
Definition direct_session : Voice.VoiceNavigator :=
  Voice.set_destination offline 0 (1 # 1000) []
    (Voice.set_current_location 0 (1 # 1000) Voice.VoiceNavigator_init).

(** The same session after the guidance has run once, at time 100 *)
Definition journey_done : Voice.VoiceNavigator :=
  Voice.provide_navigation_guidance ApproxMath.math offline 100 direct_session.

End Scenario.

(** * Properties *)

(** ** Comparisons, remainder and rounding *)

Section PyNumFacts.
Import PyNum.

Lemma ltb_lt (a b : Q) : ltb a b = true <-> a < b.
Proof.
  unfold ltb. rewrite Qlt_alt.
  destruct (Qcompare a b); split; congruence.
Qed.

Lemma ltb_ge (a b : Q) : ltb a b = false <-> b <= a.
Proof.
  rewrite <- not_true_iff_false, ltb_lt. split.
  - apply Qnot_lt_le.
  - apply Qle_not_lt.
Qed.

Lemma gtb_gt (a b : Q) : gtb a b = true <-> b < a.
Proof. apply ltb_lt. Qed.

Lemma gtb_le (a b : Q) : gtb a b = false <-> a <= b.
Proof. apply ltb_ge. Qed.

(** The remainder of a division by a positive number lies in [[0, m)]. *)
Lemma py_mod_range (x m : Q) : 0 < m -> 0 <= py_mod x m /\ py_mod x m < m.
Proof.
  intros Hm. unfold py_mod.
  assert (Hx : x == m * (x / m)) by (field; lra).
  pose proof (Qfloor_le (x / m)) as Hlo.
  pose proof (Qlt_floor (x / m)) as Hhi.
  rewrite inject_Z_plus in Hhi.
  set (f := inject_Z (Qfloor (x / m))) in *.
  change (inject_Z 1) with 1 in Hhi.
  assert (H1 : m * f <= m * (x / m)) by (apply Qmult_le_l; assumption).
  assert (H2 : m * (x / m) < m * (f + 1)) by (apply Qmult_lt_l; assumption).
  split; lra.
Qed.

(** [round] returns an integer at distance at most one half. *)
Lemma py_round_near (x : Q) :
  inject_Z (py_round x) - (1 # 2) <= x /\ x <= inject_Z (py_round x) + (1 # 2).
Proof.
  unfold py_round.
  pose proof (Qfloor_le x) as Hlo.
  pose proof (Qlt_floor x) as Hhi.
  rewrite inject_Z_plus in Hhi. change (inject_Z 1) with 1 in Hhi.
  destruct (Qcompare (x - inject_Z (Qfloor x)) (1 # 2)) eqn:E.
  - apply Qeq_alt in E.
    destruct (Z.even (Qfloor x));
      rewrite ?inject_Z_plus; change (inject_Z 1) with 1; split; lra.
  - apply Qlt_alt in E. split; lra.
  - apply Qgt_alt in E.
    rewrite inject_Z_plus. change (inject_Z 1) with 1. split; lra.
Qed.

End PyNumFacts.

(** ** The robot controller *)

Section RobotFacts.
Import PyNum Robot.
Variable m : MathLib.t.

(** With a position and a destination, the decision is the one of the
    three tests of the method, on the distance and the angle difference. *)
Lemma calculate_next_direction_fix (g dest : GeoPoint.t) (hr : option Q)
    (rc : RobotController) :
  destination rc = Some dest ->
  let distance :=
    calculate_distance m (GeoPoint.lat g) (GeoPoint.lng g)
      (GeoPoint.lat dest) (GeoPoint.lng dest) in
  let d :=
    angle_diff
      (calculate_bearing m (GeoPoint.lat g) (GeoPoint.lng g)
         (GeoPoint.lat dest) (GeoPoint.lng dest))
      (heading_in_use hr rc) in
  fst (calculate_next_direction m (Some g) hr rc) =
  Some (if ltb distance DESTINATION_THRESHOLD then Arrived
        else if ltb (Qabs d) HEADING_TOLERANCE then Forward
        else if gtb d 0 then Right else Left).
Proof.
  intros Hdest. unfold calculate_next_direction. simpl. rewrite Hdest.
  destruct (ltb _ DESTINATION_THRESHOLD); [reflexivity|].
  destruct hr as [h|]; simpl;
    destruct (ltb _ HEADING_TOLERANCE); try reflexivity;
    destruct (gtb _ 0); reflexivity.
Qed.


(** No turn of the loop body raises the flag [is_navigating]. *)
Lemma loop_body_keeps_stopped (t : Tick) (rc : RobotController)
    (sink : list Direction) :
  is_navigating rc = false ->
  is_navigating (snd (fst (loop_body m t rc sink))) = false.
Proof.
  intros Hstop. unfold loop_body.
  destruct (geb _ UPDATE_INTERVAL); [|exact Hstop].
  unfold calculate_next_direction.
  destruct (gps_reply t) as [g|]; simpl; [|exact Hstop].
  destruct (destination rc) as [dest|]; simpl; [|exact Hstop].
  destruct (ltb _ DESTINATION_THRESHOLD); simpl; [reflexivity|].
  destruct (heading_reply t); simpl;
    destruct (ltb _ HEADING_TOLERANCE); simpl; try exact Hstop;
    destruct (gtb _ 0); simpl; exact Hstop.
Qed.

(** C1. With a GPS fix and a destination, [calculate_next_direction] answers
    [Arrived] exactly when the distance from the fix to the destination is
    strictly below [DESTINATION_THRESHOLD] (5 m), whatever the heading read
    from the database and whatever the last known heading. *)
Theorem C1_arrived_iff_within_threshold (g dest : GeoPoint.t)
    (hr : option Q) (rc : RobotController) :
  destination rc = Some dest ->
  fst (calculate_next_direction m (Some g) hr rc) = Some Arrived
  <->
  calculate_distance m (GeoPoint.lat g) (GeoPoint.lng g)
    (GeoPoint.lat dest) (GeoPoint.lng dest) < 5.
Proof.
  intros Hdest. rewrite (calculate_next_direction_fix g dest hr rc Hdest).
  change 5 with DESTINATION_THRESHOLD. rewrite <- ltb_lt.
  destruct (ltb _ DESTINATION_THRESHOLD).
  - split; reflexivity.
  - destruct (ltb _ HEADING_TOLERANCE); [|destruct (gtb _ 0)];
      split; discriminate.
Qed.


(** C4, as the code has it.  [stop_navigation] lowers the flag and sends
    one command itself, [Stopped]; from then on the loop condition fails, so
    the loop returns without sending anything, and a turn of the body that
    was under way when the flag was lowered leaves it lowered. *)
Theorem C4_stop_publishes_stopped (ok : bool) (rc : RobotController)
    (sink : list Direction) (ticks : list Tick) (t : Tick) :
  let rc' := fst (stop_navigation ok rc sink) in
  let sink' := snd (stop_navigation ok rc sink) in
  sink' = (sink ++ [Stopped])%list
  /\ is_navigating rc' = false
  /\ navigation_loop m ticks rc' sink' = (Some true, rc', sink')
  /\ is_navigating (snd (fst (loop_body m t rc' sink'))) = false.
Proof.
  simpl. repeat split.
  - destruct ticks; reflexivity.
  - apply loop_body_keeps_stopped. reflexivity.
Qed.


End RobotFacts.

(** ** Compass labels *)

Section CompassFacts.
Import PyNum.

(** The integer nearest to [bearing / width], for a bearing in
    [[0, count * width)], is a sector number between [0] and [count], and
    the centre of that sector is at most half a sector away. *)
Lemma nearest_sector (bearing width : Q) (count : Z) :
  0 < width ->
  0 <= bearing -> bearing < inject_Z count * width ->
  let k := py_round (bearing / width) in
  (0 <= k <= count)%Z
  /\ Qabs (bearing - inject_Z k * width) <= width / 2.
Proof.
  intros Hw Hlo Hhi k.
  destruct (py_round_near (bearing / width)) as [Hk1 Hk2]. fold k in Hk1, Hk2.
  assert (Hb : bearing == width * (bearing / width)) by (field; lra).
  set (q := bearing / width) in *.
  assert (Hq0 : 0 <= q).
  { apply Qnot_lt_le. intros Hneg.
    assert (width * q < width * 0) by (apply Qmult_lt_l; assumption). lra. }
  assert (Hq1 : q < inject_Z count).
  { apply Qnot_le_lt. intros Hge.
    assert (width * inject_Z count <= width * q)
      by (apply Qmult_le_l; assumption). lra. }
  split.
  - split.
    + assert (H : inject_Z (-1) < inject_Z k)
        by (change (inject_Z (-1)) with (-(1)); lra).
      rewrite <- Zlt_Qlt in H. lia.
    + assert (H : inject_Z k < inject_Z (count + 1))
        by (rewrite inject_Z_plus; change (inject_Z 1) with 1; lra).
      rewrite <- Zlt_Qlt in H. lia.
  - apply Qabs_Qle_condition.
    assert (H1 : width * (inject_Z k - (1 # 2)) <= width * q)
      by (apply Qmult_le_l; assumption).
    assert (H2 : width * q <= width * (inject_Z k + (1 # 2)))
      by (apply Qmult_le_l; assumption).
    assert (Hhalf : width / 2 == width * (1 # 2)) by (field; lra).
    split; lra.
Qed.

Lemma direction_index_range (bearing : Q) :
  (0 <= Voice.direction_index bearing < 16)%Z.
Proof. unfold Voice.direction_index. apply Z.mod_pos_bound. lia. Qed.

Lemma home_direction_index_range (bearing : Q) :
  (0 <= Home.direction_index bearing < 8)%Z.
Proof. unfold Home.direction_index. apply Z.mod_pos_bound. lia. Qed.

(** C9. For a bearing in [[0, 360)], the label is the entry of the list of
    names at index [round(bearing / sectorWidth) mod sectorCount]: sixteen
    names and sectors of 22.5 degrees in [main.py], eight names and sectors
    of 45 degrees in [home_navigator.py].  The rounded value is the number
    of the nearest sector: it lies between [0] and the number of sectors,
    and its centre is at most half a sector away from the bearing. *)
Theorem C9_compass_label_nearest_sector (bearing : Q) :
  0 <= bearing -> bearing < 360 ->
  let k16 := py_round (bearing / (45 # 2)) in
  let k8 := py_round (bearing / 45) in
  (nth_error Voice.directions (Z.to_nat (k16 mod 16))
   = Some (Voice.bearing_to_direction bearing)
   /\ List.length Voice.directions = 16%nat
   /\ (0 <= k16 <= 16)%Z
   /\ Qabs (bearing - inject_Z k16 * (45 # 2)) <= 45 # 4)
  /\ (nth_error Home.directions (Z.to_nat (k8 mod 8))
      = Some (Home.bearing_to_direction bearing)
      /\ List.length Home.directions = 8%nat
      /\ (0 <= k8 <= 8)%Z
      /\ Qabs (bearing - inject_Z k8 * 45) <= 45 # 2).
Proof.
  intros Hlo Hhi k16 k8. split.
  - destruct (nearest_sector bearing (45 # 2) 16) as [Hk Hnear];
      [reflexivity | exact Hlo | unfold inject_Z; lra |].
    fold k16 in Hk, Hnear.
    split; [|split; [reflexivity | split; [exact Hk | exact Hnear]]].
    unfold Voice.bearing_to_direction. apply nth_error_nth'.
    pose proof (direction_index_range bearing) as Hi.
    change (Voice.direction_index bearing) with (k16 mod 16)%Z in *.
    change (List.length Voice.directions) with 16%nat. lia.
  - destruct (nearest_sector bearing 45 8) as [Hk Hnear];
      [reflexivity | exact Hlo | unfold inject_Z; lra |].
    fold k8 in Hk, Hnear.
    split; [|split; [reflexivity | split; [exact Hk | exact Hnear]]].
    unfold Home.bearing_to_direction. apply nth_error_nth'.
    pose proof (home_direction_index_range bearing) as Hi.
    change (Home.direction_index bearing) with (k8 mod 8)%Z in *.
    change (List.length Home.directions) with 8%nat. lia.
Qed.

End CompassFacts.

(** ** The narration queue *)

Section AudioFacts.
Import PyNum PyStr Voice.
Local Open Scope string_scope.

Lemma unbounded_never_full (q : PyQueue) : maxsize q = 0%nat -> full q = false.
Proof. intros H. unfold full. rewrite H. reflexivity. Qed.

(** On an enabled audio system over a queue without bound, a message that
    is not empty goes to the tail of the queue. *)
Lemma speak_appends (message : string) (a : AudioSystem) :
  enabled a = true ->
  maxsize (audio_queue a) = 0%nat ->
  (String.length message =? 0)%nat = false ->
  speak message a
  = set_audio_queue
      {| maxsize := 0; items := (items (audio_queue a) ++ [message])%list |} a.
Proof.
  intros He Hm Hlen. unfold speak, put.
  rewrite He, Hlen, (unbounded_never_full _ Hm), Hm. reflexivity.
Qed.

Lemma speak_keeps_settings (message : string) (a : AudioSystem) :
  enabled (speak message a) = enabled a
  /\ maxsize (audio_queue (speak message a)) = maxsize (audio_queue a).
Proof.
  unfold speak, put.
  destruct (negb (enabled a) || (String.length message =? 0)%nat);
    [split; reflexivity|].
  destruct (full (audio_queue a)); split; reflexivity.
Qed.

(** Speaking the messages of a list, one call after the other *)
Lemma speak_all_length (msgs : list string) (a : AudioSystem) :
  enabled a = true ->
  maxsize (audio_queue a) = 0%nat ->
  Forall (fun msg => (String.length msg =? 0)%nat = false) msgs ->
  List.length (items (audio_queue (fold_left (fun a msg => speak msg a) msgs a)))
  = (List.length (items (audio_queue a)) + List.length msgs)%nat.
Proof.
  intros He Hm Hall. revert a He Hm.
  induction Hall as [|msg msgs Hmsg _ IH]; intros a He Hm; simpl.
  - lia.
  - rewrite IH.
    + rewrite (speak_appends msg a He Hm Hmsg). simpl.
      rewrite length_app. simpl. lia.
    + rewrite (proj1 (speak_keeps_settings msg a)). exact He.
    + rewrite (proj2 (speak_keeps_settings msg a)). exact Hm.
Qed.

(** C8, as the code has it.  The queue built by [AudioSystem.__init__] has
    no capacity limit ([maxsize = 0]) and [speak] keeps it so: such a queue
    is never full, [put] never raises, and every [speak] of a non-empty
    message on an enabled audio system appends the message at the tail of
    the queue. *)
Theorem C8_speak_on_unbounded_queue (message : string) (a : AudioSystem) :
  maxsize (audio_queue a) = 0%nat ->
  full (audio_queue a) = false
  /\ put message (audio_queue a) <> None
  /\ maxsize (audio_queue (speak message a)) = 0%nat
  /\ (enabled a = true -> message <> "" ->
      items (audio_queue (speak message a))
      = (items (audio_queue a) ++ [message])%list).
Proof.
  intros Hm. pose proof (unbounded_never_full _ Hm) as Hfull.
  split; [exact Hfull|]. split; [|split].
  - unfold put. rewrite Hfull. discriminate.
  - rewrite (proj2 (speak_keeps_settings message a)). exact Hm.
  - intros He Hne. rewrite speak_appends; try assumption; [reflexivity|].
    destruct message; [contradiction Hne; reflexivity | reflexivity].
Qed.

End AudioFacts.

(** ** Pedestrian guidance *)

Section GuidanceFacts.
Import PyNum PyStr Voice.
Local Open Scope string_scope.
Variable m : MathLib.t.
Variable geocode : Q -> Q -> option string.

Lemma say_pending (message : string) (v : VoiceNavigator) :
  ready v ->
  (String.length message =? 0)%nat = false ->
  pending (say message v) = (pending v ++ [message])%list.
Proof.
  intros [He Hm] Hlen. unfold pending, say. simpl.
  rewrite (speak_appends message _ He Hm Hlen). reflexivity.
Qed.

Lemma say_pending_cases (message : string) (v : VoiceNavigator) :
  ready v ->
  pending (say message v) = pending v
  \/ pending (say message v) = (pending v ++ [message])%list.
Proof.
  intros Hr. destruct (String.length message =? 0)%nat eqn:Hlen.
  - left. unfold pending, say, speak. simpl. rewrite Hlen, orb_true_r.
    reflexivity.
  - right. apply say_pending; assumption.
Qed.

Lemma append_one_differs {A : Type} (l : list A) (x : A) : (l ++ [x])%list <> l.
Proof.
  intros H. apply (f_equal (@List.length A)) in H.
  rewrite length_app in H. simpl in H. lia.
Qed.

Lemma penultimate_append (a b : string) (c : ascii) :
  penultimate b = Some c -> penultimate (a ++ b) = Some c.
Proof.
  intros Hb. induction a as [|x a IH]; [exact Hb|].
  simpl. rewrite IH.
  destruct (a ++ b) as [|y [|z r]]; try reflexivity.
  simpl in IH. discriminate IH.
Qed.

(** A progress update is never the text of an off-route warning: without
    an instruction the two differ at the fifth character, with one at the
    last character but one. *)
Lemma progress_is_not_off_route (g g' : GeoPoint.t) (w w' : Waypoint.t)
    (d d' : Q) :
  progress_message m geocode g w d <> off_route_message m geocode g' w' d'.
Proof.
  unfold progress_message, off_route_message.
  destruct (String.length (Waypoint.instruction w) =? 0)%nat.
  - destruct (ltb d 30); intros H; apply (f_equal (String.get 4)) in H;
      simpl in H; discriminate H.
  - intros H. apply (f_equal penultimate) in H.
    rewrite (penultimate_append _ _ "d"%char) in H
      by (repeat apply penultimate_append; reflexivity).
    rewrite (penultimate_append _ _ "y"%char) in H
      by (repeat apply penultimate_append; reflexivity).
    discriminate H.
Qed.

(** In an active session whose current waypoint exists, the guidance is
    decided by the distance to that waypoint alone. *)
Lemma guidance_in_session (current_time : Q) (v : VoiceNavigator)
    (g : GeoPoint.t) (w : Waypoint.t) :
  navigation_active v = true ->
  current_gps v = Some g ->
  nth_error (waypoints v) (current_waypoint_index v) = Some w ->
  let distance_to_waypoint :=
    calculate_distance m (GeoPoint.lat g) (GeoPoint.lng g)
      (Waypoint.lat w) (Waypoint.lng w) in
  provide_navigation_guidance m geocode current_time v =
  if ltb distance_to_waypoint GUIDANCE_DISTANCE_THRESHOLD then
    let v1 := set_current_waypoint_index (current_waypoint_index v + 1) v in
    match nth_error (waypoints v) (current_waypoint_index v + 1) with
    | Some next_waypoint =>
        let instruction := Waypoint.instruction next_waypoint in
        if negb (String.length instruction =? 0)%nat
           && negb (String.eqb instruction (last_spoken_instruction v))
        then
          set_last_announcement_time current_time
            (set_last_spoken_instruction instruction
               (say (next_instruction_message m instruction g next_waypoint) v1))
        else v1
    | None =>
        set_last_announcement_time current_time
          (say "You are approaching your final destination!" v1)
    end
  else if gtb distance_to_waypoint OFF_ROUTE_THRESHOLD then
    if gtb (current_time - last_announcement_time v) 10 then
      set_last_announcement_time current_time
        (say (off_route_message m geocode g w distance_to_waypoint) v)
    else v
  else
    let min_interval :=
      if ltb distance_to_waypoint 30 then 5
      else if ltb distance_to_waypoint 100 then 8 else 15 in
    if gtb (current_time - last_announcement_time v) min_interval then
      set_last_announcement_time current_time
        (say (progress_message m geocode g w distance_to_waypoint) v)
    else v.
Proof.
  intros Hactive Hgps Hnth. cbv zeta.
  unfold provide_navigation_guidance. rewrite Hactive, Hgps.
  assert (Hlt : (current_waypoint_index v < List.length (waypoints v))%nat).
  { apply nth_error_Some. rewrite Hnth. discriminate. }
  destruct (waypoints v) as [|w0 ws] eqn:Hws; [simpl in Hlt; lia|].
  apply Nat.leb_gt in Hlt. rewrite Hlt, Hnth. simpl.
  rewrite Hws. reflexivity.
Qed.

(** A bearing computed by [calculate_bearing] lies in [[0, 360)]. *)
Lemma calculate_bearing_range (lat1 lng1 lat2 lng2 : Q) :
  0 <= calculate_bearing m lat1 lng1 lat2 lng2
  /\ calculate_bearing m lat1 lng1 lat2 lng2 < 360.
Proof. unfold calculate_bearing. apply py_mod_range. reflexivity. Qed.

(** The audio system stays as [VoiceNavigator.__init__] built it. *)
Lemma init_ready : ready VoiceNavigator_init.
Proof. split; reflexivity. Qed.

Lemma say_ready (message : string) (v : VoiceNavigator) :
  ready v -> ready (say message v).
Proof.
  intros [He Hm]. unfold ready, say. simpl.
  destruct (speak_keeps_settings message (audio_system v)) as [-> ->].
  split; assumption.
Qed.

Lemma set_destination_ready (lat lng : Q) (route : list string)
    (v : VoiceNavigator) :
  ready v -> ready (set_destination geocode lat lng route v).
Proof. intros Hr. unfold set_destination. apply say_ready. exact Hr. Qed.

Lemma guidance_ready (current_time : Q) (v : VoiceNavigator) :
  ready v -> ready (provide_navigation_guidance m geocode current_time v).
Proof.
  intros Hr. unfold provide_navigation_guidance.
  destruct (navigation_active v); [|exact Hr].
  destruct (current_gps v) as [g|]; [|exact Hr].
  destruct (waypoints v) as [|w0 ws] eqn:Hws; [exact Hr|].
  destruct (_ <=? _)%nat.
  - apply (say_ready _ (set_audio_system (clear_queue (audio_system v)) v)).
    exact Hr.
  - destruct (nth_error _ _) as [w|]; [|exact Hr].
    repeat match goal with
           | |- context [if ?b then _ else _] => destruct b
           | |- context [match ?o with Some _ => _ | None => _ end] =>
               destruct o
           end;
      first [ exact Hr
            | apply (say_ready _
                       (set_current_waypoint_index
                          (current_waypoint_index v + 1) v)); exact Hr
            | apply (say_ready _ v); exact Hr ].
Qed.

(** C6, as the code has it.  In an active session, when the current
    position is less than [GUIDANCE_DISTANCE_THRESHOLD] (20 m) away from the
    current waypoint, the waypoint index advances by one.  If a waypoint
    remains and its instruction is not empty and differs from the last
    spoken one, exactly one utterance joins the queue: the instruction
    without its markup, followed by the compass label of the bearing from
    the position to the new waypoint.  If the instruction is empty or is the
    last spoken one, nothing is said.  If no waypoint remains, the utterance
    is the approaching-destination message. *)
Theorem C6_waypoint_reached (current_time : Q) (v : VoiceNavigator)
    (g : GeoPoint.t) (w : Waypoint.t) :
  ready v ->
  navigation_active v = true ->
  current_gps v = Some g ->
  nth_error (waypoints v) (current_waypoint_index v) = Some w ->
  calculate_distance m (GeoPoint.lat g) (GeoPoint.lng g)
    (Waypoint.lat w) (Waypoint.lng w) < 20 ->
  let v' := provide_navigation_guidance m geocode current_time v in
  current_waypoint_index v' = (current_waypoint_index v + 1)%nat
  /\ (forall next : Waypoint.t,
        nth_error (waypoints v) (current_waypoint_index v + 1) = Some next ->
        let instruction := Waypoint.instruction next in
        (instruction <> "" ->
         instruction <> last_spoken_instruction v ->
         pending v'
         = (pending v
            ++ [("Next instruction: " ++ clean instruction ++ ". Head "
                 ++ bearing_to_direction
                      (calculate_bearing m (GeoPoint.lat g) (GeoPoint.lng g)
                         (Waypoint.lat next) (Waypoint.lng next))
                 ++ ".")%string])%list)
        /\ (instruction = "" \/ instruction = last_spoken_instruction v ->
            pending v' = pending v))
  /\ (nth_error (waypoints v) (current_waypoint_index v + 1) = None ->
      pending v'
      = (pending v ++ ["You are approaching your final destination!"])%list).
Proof.
  intros Hready Hactive Hgps Hnth Hnear v'.
  assert (Hv' : v' = provide_navigation_guidance m geocode current_time v)
    by reflexivity.
  rewrite (guidance_in_session current_time v g w Hactive Hgps Hnth) in Hv'.
  cbv zeta in Hv'.
  change 20 with GUIDANCE_DISTANCE_THRESHOLD in Hnear.
  apply ltb_lt in Hnear. rewrite Hnear in Hv'. clear Hnear.
  set (v1 := set_current_waypoint_index (current_waypoint_index v + 1) v) in *.
  assert (Hready1 : ready v1) by exact Hready.
  destruct (nth_error (waypoints v) (current_waypoint_index v + 1))
    as [next|] eqn:Hnext.
  - destruct (negb (String.length (Waypoint.instruction next) =? 0)%nat
              && negb (Waypoint.instruction next =? last_spoken_instruction v))
      eqn:Hsay; rewrite Hv'.
    + apply andb_prop in Hsay. destruct Hsay as [Hne Hdiff].
      split; [reflexivity|]. split; [|discriminate].
      intros next' Hnext'. injection Hnext' as <-. cbv zeta. split.
      * intros _ _.
        change (pending (set_last_announcement_time current_time
                  (set_last_spoken_instruction (Waypoint.instruction next)
                     (say (next_instruction_message m
                             (Waypoint.instruction next) g next) v1))))
          with (pending (say (next_instruction_message m
                               (Waypoint.instruction next) g next) v1)).
        rewrite (say_pending _ v1 Hready1) by reflexivity. reflexivity.
      * intros [Hempty | Hsame].
        -- rewrite Hempty in Hne. discriminate Hne.
        -- rewrite Hsame, String.eqb_refl in Hdiff. discriminate Hdiff.
    + split; [reflexivity|]. split; [|discriminate].
      intros next' Hnext'. injection Hnext' as <-. cbv zeta. split.
      * intros Hne Hdiff. exfalso.
        apply andb_false_iff in Hsay. destruct Hsay as [Hsay | Hsay];
          apply negb_false_iff in Hsay.
        -- destruct (Waypoint.instruction next);
             [apply Hne; reflexivity | discriminate Hsay].
        -- apply String.eqb_eq in Hsay. contradiction.
      * intros _. reflexivity.
  - rewrite Hv'. split; [reflexivity|]. split; [discriminate|].
    intros _.
    change (pending (set_last_announcement_time current_time
              (say "You are approaching your final destination!" v1)))
      with (pending (say "You are approaching your final destination!" v1)).
    rewrite (say_pending _ v1 Hready1) by reflexivity. reflexivity.
Qed.

(** C7. In an active session whose current waypoint is not reached (the
    distance is not below 20 m), the off-route warning joins the queue
    exactly when the distance to the waypoint exceeds [OFF_ROUTE_THRESHOLD]
    (50 m) and more than 10 seconds have passed since the last
    announcement.  Saying it sets [last_announcement_time] to the time of
    the tick, and a further tick at most 10 seconds later, the position
    being the same, changes nothing. *)
Theorem C7_off_route_warning (current_time : Q) (v : VoiceNavigator)
    (g : GeoPoint.t) (w : Waypoint.t) :
  ready v ->
  navigation_active v = true ->
  current_gps v = Some g ->
  nth_error (waypoints v) (current_waypoint_index v) = Some w ->
  let distance :=
    calculate_distance m (GeoPoint.lat g) (GeoPoint.lng g)
      (Waypoint.lat w) (Waypoint.lng w) in
  20 <= distance ->
  let v' := provide_navigation_guidance m geocode current_time v in
  (pending v' = (pending v ++ [off_route_message m geocode g w distance])%list
   <-> 50 < distance /\ 10 < current_time - last_announcement_time v)
  /\ (50 < distance ->
      10 < current_time - last_announcement_time v ->
      last_announcement_time v' = current_time
      /\ forall later : Q,
           later - current_time <= 10 ->
           provide_navigation_guidance m geocode later v' = v').
Proof.
  intros Hready Hactive Hgps Hnth distance Hfar v'.
  assert (Hv' : v' = provide_navigation_guidance m geocode current_time v)
    by reflexivity.
  rewrite (guidance_in_session current_time v g w Hactive Hgps Hnth) in Hv'.
  cbv zeta in Hv'. fold distance in Hv'.
  change 20 with GUIDANCE_DISTANCE_THRESHOLD in Hfar.
  pose proof Hfar as Hfarb. apply ltb_ge in Hfarb. rewrite Hfarb in Hv'.
  destruct (gtb distance OFF_ROUTE_THRESHOLD) eqn:Hoff.
  - destruct (gtb (current_time - last_announcement_time v) 10) eqn:Hdue.
    + assert (Hpend : pending v'
                      = (pending v
                         ++ [off_route_message m geocode g w distance])%list).
      { rewrite Hv'.
        change (pending (set_last_announcement_time current_time
                  (say (off_route_message m geocode g w distance) v)))
          with (pending (say (off_route_message m geocode g w distance) v)).
        apply say_pending; [exact Hready | reflexivity]. }
      apply gtb_gt in Hoff. apply gtb_gt in Hdue.
      split; [split; [intros _; split; assumption | intros _; exact Hpend]|].
      intros _ _. split; [rewrite Hv'; reflexivity|].
      intros later Hlater.
      assert (Hactive' : navigation_active v' = true)
        by (rewrite Hv'; exact Hactive).
      assert (Hgps' : current_gps v' = Some g) by (rewrite Hv'; exact Hgps).
      assert (Hnth' : nth_error (waypoints v') (current_waypoint_index v')
                      = Some w) by (rewrite Hv'; exact Hnth).
      rewrite (guidance_in_session later v' g w Hactive' Hgps' Hnth').
      cbv zeta. fold distance. rewrite Hfarb.
      apply gtb_gt in Hoff. rewrite Hoff.
      assert (Hlast : last_announcement_time v' = current_time)
        by (rewrite Hv'; reflexivity).
      rewrite Hlast.
      apply gtb_le in Hlater. rewrite Hlater. reflexivity.
    + apply gtb_gt in Hoff. apply gtb_le in Hdue. split.
      * split.
        -- intros Habs. rewrite Hv' in Habs. symmetry in Habs.
           apply append_one_differs in Habs. contradiction.
        -- intros [_ Hgt]. lra.
      * intros _ Hgt. lra.
  - apply gtb_le in Hoff. unfold OFF_ROUTE_THRESHOLD in Hoff. split.
    + split; [|intros [Hgt _]; lra].
      intros Habs. exfalso. rewrite Hv' in Habs.
      destruct (gtb (current_time - last_announcement_time v) _).
      * change (pending (set_last_announcement_time current_time
                  (say (progress_message m geocode g w distance) v)))
          with (pending (say (progress_message m geocode g w distance) v))
          in Habs.
        destruct (say_pending_cases (progress_message m geocode g w distance)
                    v Hready) as [Hsame | Happ]; rewrite ?Hsame, ?Happ in Habs.
        -- symmetry in Habs. apply append_one_differs in Habs. exact Habs.
        -- apply app_inv_head in Habs. injection Habs as Habs.
           apply progress_is_not_off_route in Habs. exact Habs.
      * symmetry in Habs. apply append_one_differs in Habs. exact Habs.
    + intros Hgt. lra.
Qed.

End GuidanceFacts.

(** ** Starting a pedestrian session *)

Section StartFacts.
Import PyNum PyStr Voice.
Local Open Scope string_scope.
Variable geocode : Q -> Q -> option string.

Lemma enumerate_from_length {A : Type} (l : list A) (k : nat) :
  List.length (enumerate_from k l) = List.length l.
Proof.
  revert k. induction l as [|x l IH]; intros k; simpl;
    [reflexivity | rewrite IH; reflexivity].
Qed.


(** The waypoints that [set_destination] leaves in the navigator *)
Lemma set_destination_waypoints (lat lng : Q) (route : list string)
    (v : VoiceNavigator) :
  route <> [] ->
  waypoints (set_destination geocode lat lng route v)
  = map (make_waypoint (current_gps v) lat lng (List.length route))
        (enumerate_from 0 route).
Proof.
  intros Hne. destruct route as [|r route]; [contradiction Hne; reflexivity|].
  reflexivity.
Qed.



End StartFacts.

(** ** The claims on concrete runs *)

Section Runs.
Import Scenario.
Local Open Scope string_scope.

(** At [very_close], about one metre from [goal], the robot has arrived. *)
Lemma C1_witness :
  Robot.destination robot = Some goal
  /\ (fst (Robot.calculate_next_direction ApproxMath.math
             (Some very_close) None robot) = Some Robot.Arrived
      <->
      Robot.calculate_distance ApproxMath.math
        (GeoPoint.lat very_close) (GeoPoint.lng very_close)
        (GeoPoint.lat goal) (GeoPoint.lng goal) < 5).
Proof.
  split; [reflexivity|].
  exact (C1_arrived_iff_within_threshold ApproxMath.math very_close goal None
           robot eq_refl).
Defined.





(** Stopping a navigating robot sends [Stopped] to the command sink. *)
Lemma C4_counterexample :
  Robot.is_navigating robot = true
  /\ snd (Robot.stop_navigation true robot []) = [Robot.Stopped].
Proof. split; reflexivity. Qed.



(** At the first waypoint, the guidance moves on to the second one and
    says its instruction, without the markup, and the way to head. *)
Lemma C6_witness :
  Voice.ready at_first_waypoint
  /\ Voice.navigation_active at_first_waypoint = true
  /\ Voice.calculate_distance ApproxMath.math 0 (1 # 1000) (0 # 3) (3 # 3000) < 20
  /\ Voice.current_waypoint_index
       (Voice.provide_navigation_guidance ApproxMath.math offline 100
          at_first_waypoint) = 1%nat
  /\ Voice.pending
       (Voice.provide_navigation_guidance ApproxMath.math offline 100
          at_first_waypoint)
     = (Voice.pending at_first_waypoint
        ++ ["Next instruction: Follow the path. Head east."])%list.
Proof.
  assert (Hready : Voice.ready at_first_waypoint) by (split; reflexivity).
  assert (Hnear : Voice.calculate_distance ApproxMath.math
                    0 (1 # 1000) (0 # 3) (3 # 3000) < 20)
    by (vm_compute; reflexivity).
  destruct (C6_waypoint_reached ApproxMath.math offline 100 at_first_waypoint
              {| GeoPoint.lat := 0; GeoPoint.lng := 1 # 1000 |}
              {| Waypoint.lat := 0 # 3; Waypoint.lng := 3 # 3000;
                 Waypoint.instruction := "Turn left at the gate";
                 Waypoint.index := 0 |}
              Hready eq_refl eq_refl eq_refl Hnear) as [Hindex [Hnext _]].
  destruct (Hnext {| Waypoint.lat := 0 # 3; Waypoint.lng := 6 # 3000;
                     Waypoint.instruction := "Follow the <b>path</b>";
                     Waypoint.index := 1 |} eq_refl) as [Hsaid _].
  split; [exact Hready|]. split; [reflexivity|]. split; [exact Hnear|].
  split; [exact Hindex|].
  rewrite Hsaid; [vm_compute; reflexivity | discriminate | discriminate].
Defined.

(** At the second waypoint the guidance moves on to the third one, whose
    instruction is empty: it differs from the last spoken instruction, and
    nothing is said. *)
Lemma C6_counterexample :
  Voice.ready at_second_waypoint
  /\ Voice.navigation_active at_second_waypoint = true
  /\ Voice.current_waypoint_index at_second_waypoint = 1%nat
  /\ Voice.calculate_distance ApproxMath.math 0 (2 # 1000) (0 # 3) (6 # 3000) < 20
  /\ option_map Waypoint.instruction
       (nth_error (Voice.waypoints at_second_waypoint) 2) = Some ""
  /\ Voice.last_spoken_instruction at_second_waypoint = "Follow the <b>path</b>"
  /\ Voice.current_waypoint_index
       (Voice.provide_navigation_guidance ApproxMath.math offline 120
          at_second_waypoint) = 2%nat
  /\ Voice.pending
       (Voice.provide_navigation_guidance ApproxMath.math offline 120
          at_second_waypoint)
     = Voice.pending at_second_waypoint.
Proof. repeat split; vm_compute; reflexivity. Qed.

(** At the start of the session the pedestrian is 111 m from the first
    waypoint: the first tick says the off-route warning, and a tick five
    seconds later says nothing. *)
Lemma C7_witness :
  Voice.ready session_started
  /\ Voice.navigation_active session_started = true
  /\ 20 <= Voice.calculate_distance ApproxMath.math 0 0 (0 # 3) (3 # 3000)
  /\ 50 < Voice.calculate_distance ApproxMath.math 0 0 (0 # 3) (3 # 3000)
  /\ 10 < 100 - Voice.last_announcement_time session_started
  /\ Voice.pending
       (Voice.provide_navigation_guidance ApproxMath.math offline 100
          session_started)
     = (Voice.pending session_started
        ++ ["You may be off route at location at 0.0000, 0.0000. Head east to get back on track. The waypoint is 111 meters away."])%list
  /\ Voice.provide_navigation_guidance ApproxMath.math offline 105
       (Voice.provide_navigation_guidance ApproxMath.math offline 100
          session_started)
     = Voice.provide_navigation_guidance ApproxMath.math offline 100
         session_started.
Proof.
  assert (Hready : Voice.ready session_started) by (split; reflexivity).
  assert (Hfar : 20 <= Voice.calculate_distance ApproxMath.math
                         0 0 (0 # 3) (3 # 3000))
    by (vm_compute; discriminate).
  assert (Hoff : 50 < Voice.calculate_distance ApproxMath.math
                        0 0 (0 # 3) (3 # 3000))
    by (vm_compute; reflexivity).
  assert (Hdue : 10 < 100 - Voice.last_announcement_time session_started)
    by (vm_compute; reflexivity).
  destruct (C7_off_route_warning ApproxMath.math offline 100 session_started
              {| GeoPoint.lat := 0; GeoPoint.lng := 0 |}
              {| Waypoint.lat := 0 # 3; Waypoint.lng := 3 # 3000;
                 Waypoint.instruction := "Turn left at the gate";
                 Waypoint.index := 0 |}
              Hready eq_refl eq_refl eq_refl Hfar) as [Hiff Hafter].
  destruct (Hafter Hoff Hdue) as [_ Hquiet].
  split; [exact Hready|]. split; [reflexivity|]. split; [exact Hfar|].
  split; [exact Hoff|]. split; [exact Hdue|]. split.
  - rewrite (proj2 Hiff (conj Hoff Hdue)). vm_compute. reflexivity.
  - apply Hquiet. vm_compute. discriminate.
Defined.

(** The queue of a new audio system is not full, and [speak] puts the
    message at its tail. *)
Lemma C8_witness :
  Voice.maxsize (Voice.audio_queue (Voice.AudioSystem_init true)) = 0%nat
  /\ Voice.full (Voice.audio_queue (Voice.AudioSystem_init true)) = false
  /\ Voice.items
       (Voice.audio_queue (Voice.speak "Turn left" (Voice.AudioSystem_init true)))
     = ["Turn left"].
Proof.
  destruct (C8_speak_on_unbounded_queue "Turn left" (Voice.AudioSystem_init true)
              eq_refl) as [Hfull [_ [_ Hitems]]].
  split; [reflexivity|]. split; [exact Hfull|].
  apply Hitems; [reflexivity | discriminate].
Defined.

(** No capacity bounds the queue: whatever the bound, one more message
    than the bound can be spoken and all of them wait in the queue. *)
Lemma C8_counterexample :
  ~ exists capacity : nat,
      forall msgs : list string,
        (List.length
           (Voice.items
              (Voice.audio_queue
                 (fold_left (fun a msg => Voice.speak msg a) msgs
                    (Voice.AudioSystem_init true))))
         <= capacity)%nat.
Proof.
  intros [capacity Hbound].
  specialize (Hbound (repeat "Turn left" (S capacity))).
  rewrite speak_all_length in Hbound; try reflexivity.
  - rewrite repeat_length in Hbound. simpl in Hbound. lia.
  - apply Forall_forall. intros msg Hin. apply repeat_spec in Hin.
    rewrite Hin. reflexivity.
Qed.

(** A bearing of 101.25 degrees is half-way between sector 4 and sector 5
    of sixteen: [round] takes the even one, "east"; of eight sectors the
    nearest is number 2, "East". *)
Lemma C9_witness :
  0 <= 405 # 4
  /\ 405 # 4 < 360
  /\ Voice.bearing_to_direction (405 # 4) = "east"
  /\ Home.bearing_to_direction (405 # 4) = "East"
  /\ nth_error Voice.directions 4 = Some "east"
  /\ nth_error Home.directions 2 = Some "East".
Proof.
  assert (Hlo : 0 <= 405 # 4) by (vm_compute; discriminate).
  assert (Hhi : 405 # 4 < 360) by (vm_compute; reflexivity).
  destruct (C9_compass_label_nearest_sector (405 # 4) Hlo Hhi)
    as [[H16 _] [H8 _]].
  split; [exact Hlo|]. split; [exact Hhi|].
  split; [vm_compute; reflexivity|]. split; [vm_compute; reflexivity|].
  split; [exact H16 | exact H8].
Defined.


End Runs.

(** * Further properties of the code *)

(** ** Remainder and rounding, continued *)

Section PyNumMore.
Import PyNum.


(** Two integers less than one apart are equal. *)
Lemma close_integers_equal (f k : Z) :
  inject_Z f - inject_Z k < 1 -> inject_Z k - inject_Z f < 1 -> f = k.
Proof.
  intros H1 H2.
  assert (Ha : inject_Z f < inject_Z (k + 1))
    by (rewrite inject_Z_plus; change (inject_Z 1) with 1; lra).
  assert (Hb : inject_Z k < inject_Z (f + 1))
    by (rewrite inject_Z_plus; change (inject_Z 1) with 1; lra).
  rewrite <- Zlt_Qlt in Ha, Hb. lia.
Qed.




(** [round] of a number less than one half away from an integer is that
    integer. *)
Lemma py_round_unique (x : Q) (k : Z) :
  inject_Z k - (1 # 2) < x -> x < inject_Z k + (1 # 2) -> py_round x = k.
Proof.
  intros H1 H2. destruct (py_round_near x) as [Hlo Hhi].
  apply close_integers_equal; lra.
Qed.

(** [round] of a number half-way between two integers is the even one. *)
Lemma py_round_tie (k : Z) :
  py_round (inject_Z k + (1 # 2)) = if Z.even k then k else (k + 1)%Z.
Proof.
  assert (Hf : Qfloor (inject_Z k + (1 # 2)) = k).
  { pose proof (Qfloor_le (inject_Z k + (1 # 2))) as Hlo.
    pose proof (Qlt_floor (inject_Z k + (1 # 2))) as Hhi.
    rewrite inject_Z_plus in Hhi. change (inject_Z 1) with 1 in Hhi.
    apply close_integers_equal; lra. }
  unfold py_round. rewrite Hf.
  assert (He : inject_Z k + (1 # 2) - inject_Z k == 1 # 2) by ring.
  apply Qeq_alt in He. rewrite He. reflexivity.
Qed.

End PyNumMore.

(** ** The robot controller, continued *)

Section RobotMore.
Import PyNum Robot.
Variable m : MathLib.t.

(** X1. [calculate_next_direction] answers [None] exactly when the position
    cannot be read or no destination is set; without a position the
    controller is left as it was. *)
Theorem X1_no_direction_without_fix_or_destination
    (gps_reply : option GeoPoint.t) (hr : option Q) (rc : RobotController) :
  (fst (calculate_next_direction m gps_reply hr rc) = None
   <-> gps_reply = None \/ destination rc = None)
  /\ snd (calculate_next_direction m None hr rc) = rc.
Proof.
  split; [|reflexivity].
  destruct gps_reply as [g|].
  - destruct (destination rc) as [dest|] eqn:Hdest.
    + rewrite (calculate_next_direction_fix m g dest hr rc Hdest).
      split; [discriminate | intros [H | H]; discriminate H].
    + unfold calculate_next_direction. simpl. rewrite Hdest.
      split; [intros _; right; reflexivity | reflexivity].
  - split; [intros _; left; reflexivity | reflexivity].
Qed.

(** The answers of a decision are the four movement commands. *)
Lemma next_direction_values (gps_reply : option GeoPoint.t) (hr : option Q)
    (rc : RobotController) (d : Direction) :
  fst (calculate_next_direction m gps_reply hr rc) = Some d -> d <> Stopped.
Proof.
  destruct gps_reply as [g|]; [|discriminate].
  destruct (destination rc) as [dest|] eqn:Hdest.
  - rewrite (calculate_next_direction_fix m g dest hr rc Hdest).
    intros H. injection H as <-.
    destruct (ltb _ DESTINATION_THRESHOLD); [discriminate|].
    destruct (ltb _ HEADING_TOLERANCE); [discriminate|].
    destruct (gtb _ 0); discriminate.
  - unfold calculate_next_direction. simpl. rewrite Hdest. discriminate.
Qed.

(** What one turn of the loop body does to the sink and to the flag *)
Lemma loop_body_cases (t : Tick) (rc : RobotController) (sink : list Direction) :
  let r := loop_body m t rc sink in
  (fst (fst r) = true /\ snd r = sink
   /\ is_navigating (snd (fst r)) = is_navigating rc)
  \/ (exists d : Direction,
        fst (fst r) = true /\ snd r = (sink ++ [d])%list
        /\ d <> Arrived /\ d <> Stopped
        /\ is_navigating (snd (fst r)) = is_navigating rc
        /\ last_update_time (snd (fst r)) = now t)
  \/ (fst (fst r) = false /\ snd r = (sink ++ [Arrived])%list
      /\ is_navigating (snd (fst r)) = false).
Proof.
  cbv zeta. unfold loop_body.
  destruct (geb _ UPDATE_INTERVAL); [|left; repeat split].
  destruct (calculate_next_direction m (gps_reply t) (heading_reply t) rc)
    as [[d|] rc1] eqn:E.
  - assert (Hd : d <> Stopped).
    { apply (next_direction_values (gps_reply t) (heading_reply t) rc).
      rewrite E. reflexivity. }
    assert (Hnav : is_navigating rc1 = is_navigating rc).
    { revert E. unfold calculate_next_direction.
      destruct (gps_reply t) as [g|]; simpl; [|discriminate].
      destruct (destination rc); simpl; [|discriminate].
      destruct (ltb _ DESTINATION_THRESHOLD);
        [intros E; injection E as _ <-; reflexivity|].
      destruct (heading_reply t); simpl;
        destruct (ltb _ HEADING_TOLERANCE);
        try (intros E; injection E as _ <-; reflexivity);
        destruct (gtb _ 0); intros E; injection E as _ <-; reflexivity. }
    destruct d; simpl;
      try (right; left; eexists; repeat split;
           [discriminate | discriminate | exact Hnav]).
    + right; right. repeat split.
    + contradiction Hd. reflexivity.
  - left. simpl. repeat split.
    revert E. unfold calculate_next_direction.
    destruct (gps_reply t) as [g|]; simpl;
      [|intros E; injection E as <-; reflexivity].
    destruct (destination rc); simpl;
      [|intros E; injection E as <-; reflexivity].
    destruct (ltb _ DESTINATION_THRESHOLD); [discriminate|].
    destruct (heading_reply t); simpl;
      destruct (ltb _ HEADING_TOLERANCE); try discriminate;
      destruct (gtb _ 0); discriminate.
Qed.

(** The commands sent by the loop: none is [Stopped], and [Arrived] can only
    be the last one, sent when the loop ends with the flag lowered. *)
Lemma navigation_loop_trace (ticks : list Tick) :
  forall (rc : RobotController) (sink : list Direction),
    let r := navigation_loop m ticks rc sink in
    exists cmds : list Direction,
      snd r = (sink ++ cmds)%list
      /\ ~ In Stopped cmds
      /\ (~ In Arrived cmds
          \/ exists pre : list Direction,
               cmds = (pre ++ [Arrived])%list /\ ~ In Arrived pre
               /\ fst (fst r) = Some true
               /\ is_navigating (snd (fst r)) = false).
Proof.
  induction ticks as [|t ts IH]; intros rc sink; cbv zeta; simpl.
  - exists []. rewrite app_nil_r.
    destruct (negb (is_navigating rc)); simpl; repeat split; auto.
  - destruct (negb (is_navigating rc)).
    + exists []. rewrite app_nil_r. simpl. repeat split; auto.
    + pose proof (loop_body_cases t rc sink) as Hbody. cbv zeta in Hbody.
      destruct (loop_body m t rc sink) as [[continue rc1] sink1].
      simpl in Hbody.
      destruct Hbody as [[Hc [Hs _]] | [[d [Hc [Hs [Hna [Hns _]]]]] | [Hc [Hs Hnav]]]];
        subst continue sink1.
      * apply IH.
      * destruct (IH rc1 (sink ++ [d])%list) as [cmds [Hsink [Hstop Harr]]].
        exists (d :: cmds). split; [|split].
        -- rewrite Hsink, <- app_assoc. reflexivity.
        -- intros [H | H]; [exact (Hns H) | exact (Hstop H)].
        -- destruct Harr as [Hno | [pre [Hcmds [Hpre [Hres Hflag]]]]].
           ++ left. intros [H | H]; [exact (Hna H) | exact (Hno H)].
           ++ right. exists (d :: pre). rewrite Hcmds. split; [reflexivity|].
              split; [|split; assumption].
              intros [H | H]; [exact (Hna H) | exact (Hpre H)].
      * exists [Arrived]. simpl. split; [reflexivity|]. split.
        -- intros [H | H]; [discriminate H | exact H].
        -- right. exists []. repeat split; auto.
Qed.

(** X2. Whatever the replies of the database, [start_navigation] only adds
    commands at the end of what was sent before, and never sends [Stopped]:
    that command comes from [stop_navigation] alone. *)
Theorem X2_navigation_never_sends_stopped (dest_lat dest_lng : Q)
    (initial_gps_reply : option GeoPoint.t) (ticks : list Tick)
    (rc : RobotController) (sink : list Direction) :
  exists cmds : list Direction,
    snd (start_navigation m dest_lat dest_lng initial_gps_reply ticks rc sink)
    = (sink ++ cmds)%list
    /\ ~ In Stopped cmds.
Proof.
  unfold start_navigation. cbv zeta.
  destruct initial_gps_reply as [g|]; simpl.
  - destruct (navigation_loop_trace ticks
                (set_current_gps g
                   (set_is_navigating true
                      (set_destination
                         (Some {| GeoPoint.lat := dest_lat;
                                  GeoPoint.lng := dest_lng |}) rc))) sink)
      as [cmds [Hsink [Hstop _]]].
    exists cmds. split; assumption.
  - exists []. rewrite app_nil_r. split; [reflexivity | intros H; exact H].
Qed.

(** X3. [Arrived] is sent at most once by [start_navigation], as the last
    command: when it is sent the method has returned [True] and the flag
    [is_navigating] is lowered. *)
Theorem X3_arrived_is_sent_last (dest_lat dest_lng : Q)
    (initial_gps_reply : option GeoPoint.t) (ticks : list Tick)
    (rc : RobotController) (sink : list Direction) :
  let r := start_navigation m dest_lat dest_lng initial_gps_reply ticks rc sink in
  exists cmds : list Direction,
    snd r = (sink ++ cmds)%list
    /\ (In Arrived cmds ->
        exists pre : list Direction,
          cmds = (pre ++ [Arrived])%list /\ ~ In Arrived pre
          /\ fst (fst r) = Some true
          /\ is_navigating (snd (fst r)) = false).
Proof.
  cbv zeta. unfold start_navigation. cbv zeta.
  destruct initial_gps_reply as [g|]; simpl.
  - destruct (navigation_loop_trace ticks
                (set_current_gps g
                   (set_is_navigating true
                      (set_destination
                         (Some {| GeoPoint.lat := dest_lat;
                                  GeoPoint.lng := dest_lng |}) rc))) sink)
      as [cmds [Hsink [_ Harr]]].
    exists cmds. split; [exact Hsink|]. intros Hin.
    destruct Harr as [Hno | Hlast]; [contradiction | exact Hlast].
  - exists []. rewrite app_nil_r. split; [reflexivity | intros H; destruct H].
Qed.

(** X4. After a turn of the loop that sent a command other than [Arrived],
    a turn less than [UPDATE_INTERVAL] (2 s) later reads nothing, sends
    nothing and leaves the controller as it is. *)
Theorem X4_commands_are_two_seconds_apart (t1 t2 : Tick)
    (rc : RobotController) (sink : list Direction) (d : Direction) :
  snd (loop_body m t1 rc sink) = (sink ++ [d])%list ->
  d <> Arrived ->
  now t2 - now t1 < 2 ->
  let rc1 := snd (fst (loop_body m t1 rc sink)) in
  loop_body m t2 rc1 (sink ++ [d])%list = (true, rc1, (sink ++ [d])%list).
Proof.
  intros Hsent Hd Hsoon rc1.
  assert (Hlast : last_update_time rc1 = now t1).
  { pose proof (loop_body_cases t1 rc sink) as Hbody. cbv zeta in Hbody.
    fold rc1 in Hbody. rewrite Hsent in Hbody.
    destruct Hbody as [[_ [Hs _]] | [[d' [_ [_ [_ [_ [_ Ht]]]]]] | [_ [Hs _]]]].
    - symmetry in Hs. apply (f_equal (@List.length Direction)) in Hs.
      rewrite length_app in Hs. simpl in Hs. lia.
    - exact Ht.
    - apply app_inv_head in Hs. injection Hs as Hs. contradiction. }
  unfold loop_body. rewrite Hlast.
  assert (Hgeb : geb (now t2 - now t1) UPDATE_INTERVAL = false).
  { unfold geb. apply negb_false_iff, ltb_lt. exact Hsoon. }
  rewrite Hgeb. reflexivity.
Qed.

(** X6. A heading read by a decision that does not end in [Arrived] is kept
    in [current_heading]: the next decision, if it cannot read the heading,
    answers what it would answer had it read that same heading again. *)
Theorem X6_last_heading_is_remembered (g1 g2 dest : GeoPoint.t) (h : Q)
    (rc : RobotController) :
  destination rc = Some dest ->
  5 <= calculate_distance m (GeoPoint.lat g1) (GeoPoint.lng g1)
         (GeoPoint.lat dest) (GeoPoint.lng dest) ->
  let rc1 := snd (calculate_next_direction m (Some g1) (Some h) rc) in
  current_heading rc1 = h
  /\ fst (calculate_next_direction m (Some g2) None rc1)
     = fst (calculate_next_direction m (Some g2) (Some h) rc1).
Proof.
  intros Hdest Hfar rc1.
  assert (Hrc1 : current_heading rc1 = h /\ destination rc1 = Some dest).
  { unfold rc1, calculate_next_direction. simpl. rewrite Hdest.
    change 5 with DESTINATION_THRESHOLD in Hfar. apply ltb_ge in Hfar.
    rewrite Hfar. simpl.
    destruct (ltb _ HEADING_TOLERANCE); [split; [reflexivity | exact Hdest]|].
    destruct (gtb _ 0); split; try reflexivity; exact Hdest. }
  destruct Hrc1 as [Hh Hd]. split; [exact Hh|].
  rewrite (calculate_next_direction_fix m g2 dest None rc1 Hd).
  rewrite (calculate_next_direction_fix m g2 dest (Some h) rc1 Hd).
  simpl. rewrite Hh. reflexivity.
Qed.




(** X9. [calculate_bearing] answers a bearing in [[0, 360)], whatever the
    positions and whatever [atan2] returns. *)
Theorem X9_bearing_range (lat1 lng1 lat2 lng2 : Q) :
  0 <= calculate_bearing m lat1 lng1 lat2 lng2
  /\ calculate_bearing m lat1 lng1 lat2 lng2 < 360.
Proof. unfold calculate_bearing. apply py_mod_range. reflexivity. Qed.

End RobotMore.

(** ** Pedestrian guidance, continued *)

Section GuidanceMore.
Import PyNum PyStr Voice.
Local Open Scope string_scope.
Variable m : MathLib.t.
Variable geocode : Q -> Q -> option string.

(** After one call of [speak], the queue is as before or one message
    longer. *)
Lemma one_more_message (message : string) (x v v' : VoiceNavigator) :
  ready x ->
  pending x = pending v ->
  pending v' = pending (say message x) ->
  pending v' = pending v
  \/ exists said : string,
       pending v' = (pending v ++ [said])%list \/ pending v' = [said].
Proof.
  intros Hr Hx Hv'. rewrite Hv'.
  destruct (say_pending_cases message x Hr) as [H | H]; rewrite H, Hx.
  - left. reflexivity.
  - right. exists message. left. reflexivity.
Qed.

(** X10. A call of [provide_navigation_guidance] says at most one thing:
    afterwards the queue is as before, or one message longer, or, when the
    arrival is announced, cleared and holding that one message. *)
Theorem X10_at_most_one_utterance_per_tick (current_time : Q)
    (v : VoiceNavigator) :
  ready v ->
  let v' := provide_navigation_guidance m geocode current_time v in
  pending v' = pending v
  \/ exists said : string,
       pending v' = (pending v ++ [said])%list \/ pending v' = [said].
Proof.
  intros Hr v'. unfold v', provide_navigation_guidance.
  destruct (navigation_active v); [|left; reflexivity].
  destruct (current_gps v) as [g|]; [|left; reflexivity].
  destruct (waypoints v) as [|w0 ws] eqn:Hws; [left; reflexivity|].
  destruct (_ <=? _)%nat.
  - right. eexists. right.
    change (pending (finish (say ?msg ?x))) with (pending (say msg x)).
    rewrite say_pending; [reflexivity | exact Hr | reflexivity].
  - destruct (nth_error _ _) as [w|]; [|left; reflexivity].
    repeat match goal with
           | |- context [if ?b then _ else _] => destruct b
           | |- context [match ?o with Some _ => _ | None => _ end] =>
               destruct o
           end;
      first [ left; reflexivity
            | eapply (one_more_message _
                        (set_current_waypoint_index
                           (current_waypoint_index v + 1) v) v);
              [exact Hr | reflexivity | reflexivity]
            | eapply (one_more_message _ v v);
              [exact Hr | reflexivity | reflexivity] ].
Qed.

(** X11. A session that is not active is left alone.  While the session
    stays active a tick keeps the waypoints and moves the waypoint index
    forward by one step at most; and the index never passes the number of
    waypoints. *)
Theorem X11_progress_is_monotonic (current_time : Q) (v : VoiceNavigator) :
  let v' := provide_navigation_guidance m geocode current_time v in
  (navigation_active v = false -> v' = v)
  /\ (navigation_active v' = true ->
      waypoints v' = waypoints v
      /\ (current_waypoint_index v <= current_waypoint_index v'
          <= current_waypoint_index v + 1)%nat)
  /\ ((current_waypoint_index v <= List.length (waypoints v))%nat ->
      (current_waypoint_index v' <= List.length (waypoints v'))%nat).
Proof.
  cbv zeta. unfold provide_navigation_guidance.
  destruct (waypoints v) as [|w0 ws] eqn:Hws.
  - destruct (navigation_active v), (current_gps v);
      (split; [first [discriminate | intros _; reflexivity]|]);
      (split; [intros _; split; [exact Hws | lia]
              | intros H; rewrite Hws; exact H]).
  - destruct (navigation_active v);
      [|split; [intros _; reflexivity|];
        split; [intros _; split; [exact Hws | lia]
               | intros H; rewrite Hws; exact H]].
    split; [discriminate|].
    destruct (current_gps v) as [g|];
      [|split; [intros _; split; [exact Hws | lia]
               | intros H; rewrite Hws; exact H]].
    destruct (_ <=? _)%nat eqn:Hdone.
    + split; [discriminate | intros _; simpl; lia].
    + apply Nat.leb_gt in Hdone.
      destruct (nth_error _ _) as [w|];
        [|split; [intros _; split; [exact Hws | lia]
                 | intros H; rewrite Hws; exact H]].
      repeat match goal with
             | |- context [if ?b then _ else _] => destruct b
             | |- context [match ?o with Some _ => _ | None => _ end] =>
                 destruct o
             end;
        (split; [intros _; split; [simpl; try exact Hws; reflexivity
                                  | simpl; lia]
                | intros _; simpl in *; rewrite ?Hws; simpl; lia]).
Qed.


(** X12. Once the index has passed the last waypoint, the next tick
    announces the arrival: the messages still waiting are dropped, the queue
    holds the arrival message alone, the session is closed and reset, and
    later ticks change nothing. *)
Theorem X12_arrival_is_announced_once (current_time : Q) (v : VoiceNavigator)
    (g : GeoPoint.t) :
  ready v ->
  navigation_active v = true ->
  current_gps v = Some g ->
  waypoints v <> [] ->
  (List.length (waypoints v) <= current_waypoint_index v)%nat ->
  let v' := provide_navigation_guidance m geocode current_time v in
  pending v'
  = ["Congratulations! You have reached your destination. Navigation complete."]
  /\ navigation_active v' = false
  /\ destination v' = None
  /\ waypoints v' = []
  /\ route_instructions v' = []
  /\ current_waypoint_index v' = 0%nat
  /\ forall later : Q, provide_navigation_guidance m geocode later v' = v'.
Proof.
  intros Hr Hactive Hgps Hne Hdone v'.
  assert (Hv' : v' = finish
                  (say "Congratulations! You have reached your destination. Navigation complete."
                     (set_audio_system (clear_queue (audio_system v)) v))).
  { unfold v', provide_navigation_guidance. rewrite Hactive, Hgps.
    destruct (waypoints v) as [|w0 ws]; [contradiction Hne; reflexivity|].
    apply Nat.leb_le in Hdone. rewrite Hdone. reflexivity. }
  rewrite Hv'. split.
  - change (pending (finish (say ?msg ?x))) with (pending (say msg x)).
    rewrite say_pending; [reflexivity | exact Hr | reflexivity].
  - repeat split; reflexivity.
Qed.



End GuidanceMore.

(** ** The navigation endpoints *)

Section EndpointFacts.
Import PyNum PyStr Voice.
Local Open Scope string_scope.
Variable m : MathLib.t.
Variable geocode : Q -> Q -> option string.

(** X14. [POST /navigation/stop] closes the session and drops the messages
    still waiting: afterwards the queue holds the message
    ["Navigation stopped."] alone, there is no destination and no waypoint,
    and the guidance changes nothing until a new session is started. *)
Theorem X14_stop_clears_session_and_queue (v : VoiceNavigator) :
  ready v ->
  exists v' : VoiceNavigator,
    stop_navigation (Some v) = (StoppedResponse "Navigation stopped", Some v')
    /\ pending v' = ["Navigation stopped."]
    /\ navigation_active v' = false
    /\ destination v' = None
    /\ waypoints v' = []
    /\ route_instructions v' = []
    /\ current_waypoint_index v' = 0%nat
    /\ forall later : Q, provide_navigation_guidance m geocode later v' = v'.
Proof.
  intros Hr. eexists. split; [reflexivity|]. split.
  - rewrite say_pending; [reflexivity | exact Hr | reflexivity].
  - repeat split; reflexivity.
Qed.


(** X16. [POST /navigation/test-guidance] answers 400 and changes nothing
    without an active session.  In an active session it runs the guidance
    as if nothing had been announced yet: more than 50 m from the current
    waypoint the off-route warning is said however recent the last
    announcement is (the clock being past 10 s), and the time of that warning
    is recorded. *)
Theorem X16_forced_guidance (current_time : Q) (v : VoiceNavigator) :
  (navigation_active v = false ->
   test_navigation_guidance m geocode current_time (Some v)
   = (GuidanceError 400 "No active navigation. Start navigation first.",
      Some v))
  /\ (forall (g : GeoPoint.t) (w : Waypoint.t),
        ready v ->
        navigation_active v = true ->
        current_gps v = Some g ->
        nth_error (waypoints v) (current_waypoint_index v) = Some w ->
        50 < calculate_distance m (GeoPoint.lat g) (GeoPoint.lng g)
               (Waypoint.lat w) (Waypoint.lng w) ->
        10 < current_time ->
        exists v' : VoiceNavigator,
          snd (test_navigation_guidance m geocode current_time (Some v))
          = Some v'
          /\ pending v'
             = (pending v
                ++ [off_route_message m geocode g w
                      (calculate_distance m (GeoPoint.lat g) (GeoPoint.lng g)
                         (Waypoint.lat w) (Waypoint.lng w))])%list
          /\ last_announcement_time v' = current_time).
Proof.
  split.
  - intros Hoff. unfold test_navigation_guidance. rewrite Hoff. reflexivity.
  - intros g w Hr Hactive Hgps Hnth Hfar Hclock.
    unfold test_navigation_guidance. rewrite Hactive. cbv zeta. simpl negb.
    cbv iota.
    set (v1 := set_last_announcement_time 0 v).
    assert (Hr1 : ready v1) by exact Hr.
    assert (H20 : 20 <= calculate_distance m (GeoPoint.lat g) (GeoPoint.lng g)
                          (Waypoint.lat w) (Waypoint.lng w)) by lra.
    set (distance := calculate_distance m (GeoPoint.lat g) (GeoPoint.lng g)
                       (Waypoint.lat w) (Waypoint.lng w)) in *.
    assert (Hv2 : provide_navigation_guidance m geocode current_time v1
                  = set_last_announcement_time current_time
                      (say (off_route_message m geocode g w distance) v1)).
    { rewrite (guidance_in_session m geocode current_time v1 g w Hactive
                 Hgps Hnth).
      cbv zeta. fold distance.
      change 20 with GUIDANCE_DISTANCE_THRESHOLD in H20.
      apply ltb_ge in H20. rewrite H20.
      change 50 with OFF_ROUTE_THRESHOLD in Hfar.
      apply gtb_gt in Hfar. rewrite Hfar.
      assert (Hdue : gtb (current_time - last_announcement_time v1) 10 = true)
        by (apply gtb_gt; simpl; lra).
      rewrite Hdue. reflexivity. }
    rewrite Hv2.
    assert (Hne : Qeq_bool current_time 0 = false).
    { apply not_true_iff_false. intros H. apply Qeq_bool_iff in H. lra. }
    change (last_announcement_time
              (set_last_announcement_time current_time
                 (say (off_route_message m geocode g w distance) v1)))
      with current_time.
    rewrite Hne. eexists. split; [reflexivity|]. split; [|reflexivity].
    change (pending (set_last_announcement_time current_time (say ?msg ?x)))
      with (pending (say msg x)).
    rewrite (say_pending _ v1 Hr1) by reflexivity. reflexivity.
Qed.

End EndpointFacts.

(** ** Starting a session, continued *)

Section StartMore.
Import PyNum PyStr Voice.
Local Open Scope string_scope.
Variable m : MathLib.t.
Variable geocode : Q -> Q -> option string.

(** X17. [POST /navigation/start] takes the current location of the request
    only when both its coordinates are truthy: a location on the equator or
    on the prime meridian (a coordinate equal to 0) is ignored, and the
    position of the navigator stays what it was. *)
Theorem X17_zero_coordinate_location_is_ignored (rand : nat)
    (request_data : StartRequest) (v : VoiceNavigator)
    (lat lng clat clng : Q) :
  req_lat request_data = Some lat ->
  req_lng request_data = Some lng ->
  req_current_location request_data = Some (Some clat, Some clng) ->
  clat == 0 \/ clng == 0 ->
  exists v' : VoiceNavigator,
    snd (start_navigation geocode rand request_data (Some v)) = Some v'
    /\ current_gps v' = current_gps v.
Proof.
  intros Hlat Hlng Hcur Hzero. unfold start_navigation.
  rewrite Hlat, Hlng, Hcur.
  assert (Hfalsy : truthy clat && truthy clng = false).
  { unfold truthy. apply andb_false_iff.
    destruct Hzero as [H | H]; [left | right];
      apply negb_false_iff, Qeq_bool_iff; exact H. }
  rewrite Hfalsy. eexists. split; reflexivity.
Qed.

(** X18. When the request carries no route instruction, the route is the
    first [rand] sample instructions, [rand] being the number drawn between
    3 and 7: the session has that many waypoints, never the single waypoint
    ["Arrive at destination"]. *)
Theorem X18_sample_route_when_none_given (rand : nat)
    (request_data : StartRequest) (v : VoiceNavigator) (lat lng : Q) :
  req_lat request_data = Some lat ->
  req_lng request_data = Some lng ->
  req_route_instructions request_data = [] ->
  (3 <= rand <= 7)%nat ->
  exists v' : VoiceNavigator,
    start_navigation geocode rand request_data (Some v)
    = (StartedResponse {| GeoPoint.lat := lat; GeoPoint.lng := lng |}
         (current_gps v') rand rand, Some v')
    /\ route_instructions v' = firstn rand sample_instructions
    /\ List.length (waypoints v') = rand
    /\ map Waypoint.instruction (waypoints v') = firstn rand sample_instructions.
Proof.
  intros Hlat Hlng Hroute Hrand. unfold start_navigation.
  rewrite Hlat, Hlng, Hroute.
  set (v1 := match req_current_location request_data with
             | Some (Some clat, Some clng) =>
                 if truthy clat && truthy clng
                 then set_current_location clat clng v else v
             | _ => v
             end).
  assert (Hgen : generate_sample_route_instructions rand
                 = firstn rand sample_instructions).
  { unfold generate_sample_route_instructions.
    change (List.length sample_instructions) with 10%nat.
    rewrite Nat.min_l by lia. reflexivity. }
  rewrite Hgen.
  assert (Hcases : (rand = 3 \/ rand = 4 \/ rand = 5 \/ rand = 6 \/ rand = 7)%nat)
    by lia.
  eexists. split; [|split; [|split]].
  - destruct Hcases as [-> | [-> | [-> | [-> | ->]]]]; reflexivity.
  - destruct Hcases as [-> | [-> | [-> | [-> | ->]]]]; reflexivity.
  - destruct Hcases as [-> | [-> | [-> | [-> | ->]]]]; reflexivity.
  - destruct Hcases as [-> | [-> | [-> | [-> | ->]]]]; reflexivity.
Qed.

Lemma map_make_waypoint_without_position (lat lng : Q) (n : nat)
    (l : list (nat * string)) :
  Forall (fun w => Waypoint.lat w = lat /\ Waypoint.lng w = lng)
    (map (make_waypoint None lat lng n) l).
Proof.
  induction l as [|[i instruction] l IH]; simpl; constructor;
    [split; reflexivity | exact IH].
Qed.

(** X19. When no current position is known, [set_destination] puts every
    waypoint at the destination itself, one per route instruction, or a
    single one when there is no instruction. *)
Theorem X19_waypoints_without_position (lat lng : Q) (route : list string)
    (v : VoiceNavigator) :
  current_gps v = None ->
  let v' := set_destination geocode lat lng route v in
  Forall (fun w => Waypoint.lat w = lat /\ Waypoint.lng w = lng) (waypoints v')
  /\ List.length (waypoints v') = Nat.max 1 (List.length route).
Proof.
  intros Hgps v'. destruct route as [|r route].
  - split; [repeat constructor | reflexivity].
  - unfold v'. rewrite set_destination_waypoints by discriminate.
    rewrite Hgps. split.
    + apply map_make_waypoint_without_position.
    + rewrite length_map, enumerate_from_length. simpl. reflexivity.
Qed.

(** X27. No endpoint of the pedestrian navigation disables the audio system
    or bounds its queue: a navigator that is [ready] is [ready] after
    [/navigation/start], [/navigation/update-gps], [/navigation/stop] and
    [/navigation/test-guidance]. *)
Theorem X27_endpoints_keep_audio_ready (rand : nat)
    (request_data : StartRequest) (current_time : Q) (lat lng : option Q)
    (v : VoiceNavigator) :
  ready v ->
  (forall v', snd (start_navigation geocode rand request_data (Some v))
              = Some v' -> ready v')
  /\ (forall v', snd (update_gps_location m geocode current_time lat lng (Some v))
                 = Some v' -> ready v')
  /\ (forall v', snd (stop_navigation (Some v)) = Some v' -> ready v')
  /\ (forall v', snd (test_navigation_guidance m geocode current_time (Some v))
                 = Some v' -> ready v').
Proof.
  intros Hr. split; [|split; [|split]].
  - intros v'. unfold start_navigation.
    destruct (req_lat request_data), (req_lng request_data); simpl;
      intros H; injection H as <-; try exact Hr.
    apply set_destination_ready.
    destruct (req_current_location request_data) as [[[clat|] [clng|]]|];
      try exact Hr.
    destruct (truthy clat && truthy clng); exact Hr.
  - intros v'. unfold update_gps_location.
    destruct lat as [la|], lng as [ln|]; simpl;
      intros H; injection H as <-; try exact Hr.
    change (navigation_active (set_current_location la ln v))
      with (navigation_active v).
    destruct (navigation_active v); [|exact Hr].
    apply guidance_ready. exact Hr.
  - intros v'. simpl. intros H. injection H as <-.
    apply say_ready. exact Hr.
  - intros v'. unfold test_navigation_guidance.
    destruct (negb (navigation_active v)); simpl;
      intros H; injection H as <-; [exact Hr|].
    assert (Hg : ready (provide_navigation_guidance m geocode current_time
                          (set_last_announcement_time 0 v)))
      by (apply guidance_ready; exact Hr).
    destruct (Qeq_bool _ 0); exact Hg.
Qed.

End StartMore.

(** ** The robot endpoints *)

Section BackendFacts.
Import Backend.
Local Open Scope string_scope.
Variable m : MathLib.t.
Variable geocode : Q -> Q -> option string.

(** X21. [POST /robot/navigate-to] refuses a request without latitude or
    longitude (400) and a request made while the robot is navigating (409):
    no thread is started and the voice navigator is untouched.  Otherwise
    the navigation thread is started for the coordinates sent, and the voice
    navigator gets an active session with one waypoint, at the destination,
    and two more messages in its queue. *)
Theorem X21_robot_navigate_to (lat lng : option Q)
    (rc : Robot.RobotController) (vn : option Voice.VoiceNavigator) :
  (lat = None \/ lng = None ->
   robot_navigate_to geocode lat lng rc vn
   = (NavigateError 400 "Missing lat/lng coordinates", None, vn))
  /\ (forall la ln : Q,
        lat = Some la -> lng = Some ln ->
        Robot.is_navigating rc = true ->
        robot_navigate_to geocode lat lng rc vn
        = (NavigateError 409
             "Robot is already navigating. Stop current navigation first.",
           None, vn))
  /\ (forall (la ln : Q) (v : Voice.VoiceNavigator),
        lat = Some la -> lng = Some ln ->
        Robot.is_navigating rc = false ->
        vn = Some v ->
        Voice.ready v ->
        exists v' : Voice.VoiceNavigator,
          robot_navigate_to geocode lat lng rc vn
          = (NavigateStarted {| GeoPoint.lat := la; GeoPoint.lng := ln |},
             Some (la, ln), Some v')
          /\ Voice.navigation_active v' = true
          /\ Voice.waypoints v'
             = [ {| Waypoint.lat := la; Waypoint.lng := ln;
                    Waypoint.instruction := "Arrive at destination";
                    Waypoint.index := 0 |} ]
          /\ List.length (Voice.pending v')
             = (List.length (Voice.pending v) + 2)%nat).
Proof.
  split; [|split].
  - intros [H | H]; rewrite H; [|destruct lat]; reflexivity.
  - intros la ln -> -> Hnav. unfold robot_navigate_to. rewrite Hnav.
    reflexivity.
  - intros la ln v -> -> Hnav -> Hr. unfold robot_navigate_to. rewrite Hnav.
    eexists. split; [reflexivity|]. split; [reflexivity|].
    split; [reflexivity|].
    rewrite say_pending;
      [|apply set_destination_ready; exact Hr | reflexivity].
    unfold Voice.set_destination.
    rewrite say_pending; [|exact Hr|].
    + rewrite !length_app. unfold Voice.pending. simpl. lia.
    + destruct (Voice.current_gps v); reflexivity.
Qed.

(** X5. [RobotController.start_navigation] raises the flag [is_navigating]
    before it reads the position.  When that first read fails, it returns
    [False] and has sent nothing, but the flag stays raised and the
    destination set: a later [POST /robot/navigate-to] is refused with
    status 409. *)
Theorem X5_failed_start_leaves_robot_navigating (dest_lat dest_lng : Q)
    (ticks : list Robot.Tick) (rc : Robot.RobotController)
    (sink : list Robot.Direction) (lat lng : Q)
    (vn : option Voice.VoiceNavigator) :
  let r := Robot.start_navigation m dest_lat dest_lng None ticks rc sink in
  fst (fst r) = Some false
  /\ snd r = sink
  /\ Robot.is_navigating (snd (fst r)) = true
  /\ Robot.destination (snd (fst r))
     = Some {| GeoPoint.lat := dest_lat; GeoPoint.lng := dest_lng |}
  /\ robot_navigate_to geocode (Some lat) (Some lng) (snd (fst r)) vn
     = (NavigateError 409
          "Robot is already navigating. Stop current navigation first.",
        None, vn).
Proof. repeat split. Qed.

End BackendFacts.

(** ** Compass labels, continued *)

Section CompassMore.
Import PyNum.
Local Open Scope string_scope.

Lemma py_round_compat (x y : Q) : x == y -> py_round x = py_round y.
Proof.
  intros H. unfold py_round.
  assert (Hf : Qfloor x = Qfloor y) by (apply Qfloor_comp; exact H).
  rewrite Hf.
  assert (Hr : x - inject_Z (Qfloor y) == y - inject_Z (Qfloor y))
    by (rewrite H; reflexivity).
  rewrite Hr. reflexivity.
Qed.

(** A bearing less than half a sector away from the centre of sector [k]
    is rounded to [k]. *)
Lemma round_to_sector (bearing width : Q) (k : Z) :
  0 < width ->
  Qabs (bearing - inject_Z k * width) < width / 2 ->
  py_round (bearing / width) = k.
Proof.
  intros Hw Hnear. apply Qabs_Qlt_condition in Hnear. destruct Hnear as [H1 H2].
  assert (Hb : bearing == width * (bearing / width)) by (field; lra).
  assert (Hhalf : width / 2 == width * (1 # 2)) by (field; lra).
  set (q := bearing / width) in *.
  apply py_round_unique.
  - apply (Qmult_lt_l _ _ width Hw). lra.
  - apply (Qmult_lt_l _ _ width Hw). lra.
Qed.

(** X23. Sixteen-point compass of [main.py]: a bearing less than 11.25
    degrees away from [k * 22.5] gets the name number [k mod 16] of the list,
    also across the north: bearings just below 360 are "north" like those
    just above 0. *)
Theorem X23_sixteen_point_sectors (bearing : Q) (k : Z) :
  Qabs (bearing - inject_Z k * (45 # 2)) < 45 # 4 ->
  Voice.direction_index bearing = (k mod 16)%Z
  /\ nth_error Voice.directions (Z.to_nat (k mod 16))
     = Some (Voice.bearing_to_direction bearing)
  /\ (k mod 16 = 0 -> Voice.bearing_to_direction bearing = "north")%Z.
Proof.
  intros Hnear.
  assert (Hk : py_round (bearing / (45 # 2)) = k).
  { apply round_to_sector; [reflexivity|].
    eapply Qlt_le_trans; [exact Hnear|]. vm_compute. discriminate. }
  assert (Hidx : Voice.direction_index bearing = (k mod 16)%Z)
    by (unfold Voice.direction_index; rewrite Hk; reflexivity).
  split; [exact Hidx|]. split.
  - unfold Voice.bearing_to_direction. rewrite Hidx. apply nth_error_nth'.
    pose proof (Z.mod_pos_bound k 16) as Hb.
    change (List.length Voice.directions) with 16%nat. lia.
  - intros H0. unfold Voice.bearing_to_direction. rewrite Hidx, H0.
    reflexivity.
Qed.

(** X24. Eight-point compass of [home_navigator.py]: a bearing less than
    22.5 degrees away from [k * 45] gets the name number [k mod 8] of the
    list, also across the north. *)
Theorem X24_eight_point_sectors (bearing : Q) (k : Z) :
  Qabs (bearing - inject_Z k * 45) < 45 # 2 ->
  Home.direction_index bearing = (k mod 8)%Z
  /\ nth_error Home.directions (Z.to_nat (k mod 8))
     = Some (Home.bearing_to_direction bearing)
  /\ (k mod 8 = 0 -> Home.bearing_to_direction bearing = "North")%Z.
Proof.
  intros Hnear.
  assert (Hk : py_round (bearing / 45) = k).
  { apply round_to_sector; [reflexivity|].
    eapply Qlt_le_trans; [exact Hnear|]. vm_compute. discriminate. }
  assert (Hidx : Home.direction_index bearing = (k mod 8)%Z)
    by (unfold Home.direction_index; rewrite Hk; reflexivity).
  split; [exact Hidx|]. split.
  - unfold Home.bearing_to_direction. rewrite Hidx. apply nth_error_nth'.
    pose proof (Z.mod_pos_bound k 8) as Hb.
    change (List.length Home.directions) with 8%nat. lia.
  - intros H0. unfold Home.bearing_to_direction. rewrite Hidx, H0.
    reflexivity.
Qed.

(** X25. On the boundary between two sectors the label is that of the
    even-numbered one, since [round] rounds halves to even: 11.25 degrees is
    "north" (sector 0) and 33.75 degrees is "northeast" (sector 2), never
    "north-northeast" (sector 1). *)
Theorem X25_sector_boundaries_go_to_even (bearing : Q) (k : Z) :
  bearing == (inject_Z k + (1 # 2)) * (45 # 2) ->
  Voice.direction_index bearing
  = ((if Z.even k then k else k + 1) mod 16)%Z
  /\ Z.even (Voice.direction_index bearing) = true.
Proof.
  intros Hb.
  assert (Hq : bearing / (45 # 2) == inject_Z k + (1 # 2))
    by (rewrite Hb; field).
  assert (Hidx : Voice.direction_index bearing
                 = ((if Z.even k then k else k + 1) mod 16)%Z).
  { unfold Voice.direction_index.
    rewrite (py_round_compat _ _ Hq), py_round_tie. reflexivity. }
  split; [exact Hidx|]. rewrite Hidx.
  set (e := if Z.even k then k else (k + 1)%Z).
  assert (He : Z.even e = true).
  { unfold e. destruct (Z.even k) eqn:E; [exact E|].
    rewrite Z.even_add, E. reflexivity. }
  rewrite (Z.div_mod e 16) in He by lia.
  rewrite Z.even_add, Z.even_mul in He. simpl in He.
  destruct (Z.even (e mod 16)); [reflexivity | discriminate He].
Qed.

End CompassMore.

(** ** Messages *)

Section MessageFacts.
Import PyNum PyStr Voice.
Local Open Scope string_scope.

(** Replacing a text that starts with a character the string does not
    contain changes nothing. *)
Lemma replace_without_first_character (c : ascii) (old new s : string) :
  (forall n : nat, String.get n s <> Some c) ->
  replace (String c old) new s = s.
Proof.
  unfold replace. induction s as [|a s IH]; intros Hno; [reflexivity|].
  simpl. destruct (ascii_dec c a) as [Heq | Hneq].
  - exfalso. apply (Hno 0%nat). simpl. rewrite Heq. reflexivity.
  - rewrite IH; [reflexivity|]. intros n. exact (Hno (S n)).
Qed.

(** X26. An instruction without the character [<] is spoken as it is: the
    four [replace] calls that strip the markup leave it unchanged. *)
Theorem X26_clean_keeps_plain_instructions (instruction : string) :
  (forall n : nat, String.get n instruction <> Some "<"%char) ->
  clean instruction = instruction.
Proof.
  intros Hno. unfold clean.
  rewrite (replace_without_first_character "<" "b>" "" instruction Hno).
  rewrite (replace_without_first_character "<" "/b>" "" instruction Hno).
  rewrite (replace_without_first_character "<" "div>" " " instruction Hno).
  apply (replace_without_first_character "<" "/div>" " " instruction Hno).
Qed.

Lemma speak_keeps_worker (message : string) (a : AudioSystem) :
  audio_worker_running (speak message a) = audio_worker_running a.
Proof.
  unfold speak, put.
  destruct (negb (enabled a) || (String.length message =? 0)%nat);
    [reflexivity|].
  destruct (full (audio_queue a)); reflexivity.
Qed.

Lemma speak_all_items (msgs : list string) :
  forall a : AudioSystem,
    enabled a = true ->
    maxsize (audio_queue a) = 0%nat ->
    Forall (fun msg => (String.length msg =? 0)%nat = false) msgs ->
    items (audio_queue (fold_left (fun a msg => speak msg a) msgs a))
    = (items (audio_queue a) ++ msgs)%list
    /\ audio_worker_running (fold_left (fun a msg => speak msg a) msgs a)
       = audio_worker_running a.
Proof.
  induction msgs as [|msg msgs IH]; intros a He Hm Hall; simpl.
  - rewrite app_nil_r. split; reflexivity.
  - inversion Hall as [|? ? Hmsg Hrest]; subst.
    destruct (IH (speak msg a)) as [Hitems Hrun].
    + rewrite (proj1 (speak_keeps_settings msg a)). exact He.
    + rewrite (proj2 (speak_keeps_settings msg a)). exact Hm.
    + exact Hrest.
    + rewrite Hitems, Hrun, speak_keeps_worker.
      rewrite (speak_appends msg a He Hm Hmsg). simpl.
      rewrite <- app_assoc. split; reflexivity.
Qed.

(** [n] turns of a running worker speak the [n] oldest messages of the
    queue, oldest first, and leave the others. *)
Lemma audio_worker_turns_take (n : nat) :
  forall a : AudioSystem,
    audio_worker_running a = true ->
    fst (audio_worker_turns n a) = firstn n (items (audio_queue a))
    /\ items (audio_queue (snd (audio_worker_turns n a)))
       = skipn n (items (audio_queue a)).
Proof.
  induction n as [|n IH]; intros a Hrun; [split; reflexivity|].
  simpl. unfold audio_worker_turn, get. rewrite Hrun.
  destruct (items (audio_queue a)) as [|message rest] eqn:Hitems.
  - destruct (IH a Hrun) as [Hspoken Hleft].
    destruct (audio_worker_turns n a) as [later a2]. simpl in *.
    rewrite Hitems in Hspoken, Hleft.
    rewrite firstn_nil in Hspoken. rewrite skipn_nil in Hleft.
    split; assumption.
  - set (a1 := {| enabled := enabled a;
                  audio_queue := {| maxsize := maxsize (audio_queue a);
                                    items := rest |};
                  audio_worker_running := true;
                  currently_speaking := false |}).
    destruct (IH a1 eq_refl) as [Hspoken Hleft].
    destruct (audio_worker_turns n a1) as [later a2]. simpl in *.
    rewrite Hspoken. split; [reflexivity | exact Hleft].
Qed.

(** X28. The messages are spoken in the order in which they were queued:
    after [speak] has been called on the messages of a list, [n] turns of
    the worker speak the [n] oldest messages of the queue, those that
    waited before first, and the others stay in the queue in their order. *)
Theorem X28_messages_are_spoken_in_order (msgs : list string) (n : nat)
    (a : AudioSystem) :
  enabled a = true ->
  maxsize (audio_queue a) = 0%nat ->
  audio_worker_running a = true ->
  Forall (fun msg => (String.length msg =? 0)%nat = false) msgs ->
  let a1 := fold_left (fun a msg => speak msg a) msgs a in
  fst (audio_worker_turns n a1)
  = firstn n (items (audio_queue a) ++ msgs)%list
  /\ items (audio_queue (snd (audio_worker_turns n a1)))
     = skipn n (items (audio_queue a) ++ msgs)%list.
Proof.
  intros He Hm Hrun Hall a1.
  destruct (speak_all_items msgs a He Hm Hall) as [Hitems Hrun1].
  fold a1 in Hitems, Hrun1. rewrite Hrun in Hrun1.
  destruct (audio_worker_turns_take n a1 Hrun1) as [Hspoken Hleft].
  rewrite Hitems in Hspoken, Hleft. split; assumption.
Qed.

End MessageFacts.

(** ** The end of a journey *)

Section JourneyFacts.
Import PyNum PyStr.
Local Open Scope string_scope.
Variable m : MathLib.t.
Variable geocode : Q -> Q -> option string.

(** X20. When the robot is navigating and a turn of the loop that is due
    reads a position less than 5 m from the destination, the loop sends
    [Arrived], lowers the flag and ends there: the replies that would have
    come in later turns are never read and nothing more is sent. *)
Theorem X20_arrival_ends_the_loop (t : Robot.Tick) (ts : list Robot.Tick)
    (rc : Robot.RobotController) (sink : list Robot.Direction)
    (g dest : GeoPoint.t) :
  Robot.is_navigating rc = true ->
  Robot.destination rc = Some dest ->
  Robot.gps_reply t = Some g ->
  2 <= Robot.now t - Robot.last_update_time rc ->
  Robot.calculate_distance m (GeoPoint.lat g) (GeoPoint.lng g)
    (GeoPoint.lat dest) (GeoPoint.lng dest) < 5 ->
  Robot.navigation_loop m (t :: ts) rc sink
  = (Some true,
     Robot.set_is_navigating false (Robot.set_current_gps g rc),
     (sink ++ [Robot.Arrived])%list).
Proof.
  intros Hnav Hdest Hgps Hdue Hnear. simpl. rewrite Hnav. simpl.
  unfold Robot.loop_body.
  assert (Hgeb : geb (Robot.now t - Robot.last_update_time rc)
                   Robot.UPDATE_INTERVAL = true).
  { unfold geb. apply negb_true_iff, ltb_ge. exact Hdue. }
  rewrite Hgeb, Hgps. unfold Robot.calculate_next_direction. simpl.
  rewrite Hdest.
  change 5 with Robot.DESTINATION_THRESHOLD in Hnear.
  apply ltb_lt in Hnear. rewrite Hnear. reflexivity.
Qed.

(** X22. The last two ticks of a journey.  Within 20 m of the last
    waypoint, the tick says that the destination is near and moves the
    index past the last waypoint.  The tick after that, wherever the
    pedestrian is, announces the arrival and closes the session; it clears
    the queue first, so that the arrival message is then the only one
    waiting. *)
Theorem X22_last_waypoint_then_arrival (t1 t2 lat2 lng2 : Q)
    (v : Voice.VoiceNavigator) (g : GeoPoint.t) (w : Waypoint.t) :
  Voice.ready v ->
  Voice.navigation_active v = true ->
  Voice.current_gps v = Some g ->
  nth_error (Voice.waypoints v) (Voice.current_waypoint_index v) = Some w ->
  (Voice.current_waypoint_index v + 1)%nat = List.length (Voice.waypoints v) ->
  Voice.calculate_distance m (GeoPoint.lat g) (GeoPoint.lng g)
    (Waypoint.lat w) (Waypoint.lng w) < 20 ->
  let v1 := Voice.provide_navigation_guidance m geocode t1 v in
  let v2 :=
    Voice.provide_navigation_guidance m geocode t2
      (Voice.set_current_location lat2 lng2 v1) in
  Voice.pending v1
  = (Voice.pending v ++ ["You are approaching your final destination!"])%list
  /\ Voice.navigation_active v1 = true
  /\ Voice.pending v2
     = ["Congratulations! You have reached your destination. Navigation complete."]
  /\ Voice.navigation_active v2 = false.
Proof.
  intros Hr Hactive Hgps Hnth Hlast Hnear v1 v2.
  assert (Hnext : nth_error (Voice.waypoints v)
                    (Voice.current_waypoint_index v + 1) = None)
    by (apply nth_error_None; lia).
  assert (Hv1 : v1 = Voice.set_last_announcement_time t1
                  (Voice.say "You are approaching your final destination!"
                     (Voice.set_current_waypoint_index
                        (Voice.current_waypoint_index v + 1) v))).
  { unfold v1.
    rewrite (guidance_in_session m geocode t1 v g w Hactive Hgps Hnth).
    cbv zeta.
    change 20 with Voice.GUIDANCE_DISTANCE_THRESHOLD in Hnear.
    apply ltb_lt in Hnear. rewrite Hnear, Hnext. reflexivity. }
  assert (Hp1 : Voice.pending v1
                = (Voice.pending v
                   ++ ["You are approaching your final destination!"])%list).
  { rewrite Hv1.
    change (Voice.pending (Voice.set_last_announcement_time t1
                             (Voice.say ?msg ?x)))
      with (Voice.pending (Voice.say msg x)).
    rewrite say_pending; [reflexivity | exact Hr | reflexivity]. }
  assert (Hr1 : Voice.ready v1).
  { rewrite Hv1. apply (say_ready _ (Voice.set_current_waypoint_index
                                       (Voice.current_waypoint_index v + 1) v)).
    exact Hr. }
  split; [exact Hp1|]. split; [rewrite Hv1; exact Hactive|].
  assert (Hv2 : v2 = Voice.finish
                  (Voice.say "Congratulations! You have reached your destination. Navigation complete."
                     (Voice.set_audio_system
                        (Voice.clear_queue (Voice.audio_system v1))
                        (Voice.set_current_location lat2 lng2 v1)))).
  { unfold v2, Voice.provide_navigation_guidance.
    assert (Hw : Voice.waypoints (Voice.set_current_location lat2 lng2 v1)
                 = Voice.waypoints v) by (rewrite Hv1; reflexivity).
    assert (Hi : Voice.current_waypoint_index
                   (Voice.set_current_location lat2 lng2 v1)
                 = (Voice.current_waypoint_index v + 1)%nat)
      by (rewrite Hv1; reflexivity).
    assert (Ha : Voice.navigation_active
                   (Voice.set_current_location lat2 lng2 v1) = true)
      by (rewrite Hv1; exact Hactive).
    rewrite Ha, Hw, Hi. simpl Voice.current_gps. cbv iota.
    destruct (Voice.waypoints v) as [|w0 ws] eqn:Hws;
      [simpl in Hlast; lia|].
    rewrite Hlast, Nat.leb_refl. reflexivity. }
  rewrite Hv2. split; [|reflexivity].
  change (Voice.pending (Voice.finish (Voice.say ?msg ?x)))
    with (Voice.pending (Voice.say msg x)).
  rewrite say_pending; [reflexivity | exact Hr1 | reflexivity].
Qed.

End JourneyFacts.
(** ** The further properties on concrete runs *)

Section MoreRuns.
Import Scenario.
Local Open Scope string_scope.

(** Started at [start] and reading [very_close] at its first turn, the robot
    sends [Arrived] alone and the method returns. *)
Lemma X3_witness :
  In Robot.Arrived [Robot.Arrived]
  /\ snd (Robot.start_navigation ApproxMath.math
            (GeoPoint.lat goal) (GeoPoint.lng goal) (Some start)
            [tick_very_close] Robot.init [])
     = [Robot.Arrived]
  /\ fst (fst (Robot.start_navigation ApproxMath.math
                 (GeoPoint.lat goal) (GeoPoint.lng goal) (Some start)
                 [tick_very_close] Robot.init []))
     = Some true.
Proof.
  destruct (X3_arrived_is_sent_last ApproxMath.math
              (GeoPoint.lat goal) (GeoPoint.lng goal) (Some start)
              [tick_very_close] Robot.init []) as [cmds [Hsink Hlast]].
  assert (Hrun : snd (Robot.start_navigation ApproxMath.math
                        (GeoPoint.lat goal) (GeoPoint.lng goal) (Some start)
                        [tick_very_close] Robot.init [])
                 = [Robot.Arrived]) by (vm_compute; reflexivity).
  rewrite Hrun in Hsink. simpl in Hsink. subst cmds.
  destruct (Hlast (or_introl eq_refl)) as [pre [_ [_ [Hres _]]]].
  split; [left; reflexivity|]. split; [exact Hrun | exact Hres].
Defined.

(** The turn at time 10 sends [Right]; the turn at time 11 does nothing. *)
Lemma X4_witness :
  snd (Robot.loop_body ApproxMath.math tick_without_heading robot [])
  = [Robot.Right]
  /\ Robot.Right <> Robot.Arrived
  /\ Robot.now tick_one_second_later - Robot.now tick_without_heading < 2
  /\ Robot.loop_body ApproxMath.math tick_one_second_later
       (snd (fst (Robot.loop_body ApproxMath.math tick_without_heading robot [])))
       [Robot.Right]
     = (true,
        snd (fst (Robot.loop_body ApproxMath.math tick_without_heading robot [])),
        [Robot.Right]).
Proof.
  assert (Hsent : snd (Robot.loop_body ApproxMath.math tick_without_heading
                         robot [])
                  = ([] ++ [Robot.Right])%list) by (vm_compute; reflexivity).
  assert (Hd : Robot.Right <> Robot.Arrived) by discriminate.
  assert (Hsoon : Robot.now tick_one_second_later
                  - Robot.now tick_without_heading < 2)
    by (vm_compute; reflexivity).
  split; [exact Hsent|]. split; [exact Hd|]. split; [exact Hsoon|].
  exact (X4_commands_are_two_seconds_apart ApproxMath.math
           tick_without_heading tick_one_second_later robot [] Robot.Right
           Hsent Hd Hsoon).
Defined.

(** A heading of 100 degrees read at [start] is the one used at [start]
    again when the heading cannot be read. *)
Lemma X6_witness :
  Robot.destination robot = Some goal
  /\ 5 <= Robot.calculate_distance ApproxMath.math
            (GeoPoint.lat start) (GeoPoint.lng start)
            (GeoPoint.lat goal) (GeoPoint.lng goal)
  /\ Robot.current_heading
       (snd (Robot.calculate_next_direction ApproxMath.math
               (Some start) (Some 100) robot)) = 100
  /\ fst (Robot.calculate_next_direction ApproxMath.math (Some start) None
            (snd (Robot.calculate_next_direction ApproxMath.math
                    (Some start) (Some 100) robot)))
     = fst (Robot.calculate_next_direction ApproxMath.math (Some start)
              (Some 100)
              (snd (Robot.calculate_next_direction ApproxMath.math
                      (Some start) (Some 100) robot))).
Proof.
  assert (Hfar : 5 <= Robot.calculate_distance ApproxMath.math
                        (GeoPoint.lat start) (GeoPoint.lng start)
                        (GeoPoint.lat goal) (GeoPoint.lng goal))
    by (vm_compute; discriminate).
  split; [reflexivity|]. split; [exact Hfar|].
  exact (X6_last_heading_is_remembered ApproxMath.math start start goal 100
           robot eq_refl Hfar).
Defined.


(** Lowered at [very_close], the flag ends the loop though two more turns
    were to come. *)
Lemma X20_witness :
  Robot.is_navigating robot = true
  /\ Robot.destination robot = Some goal
  /\ Robot.gps_reply tick_very_close = Some very_close
  /\ 2 <= Robot.now tick_very_close - Robot.last_update_time robot
  /\ Robot.calculate_distance ApproxMath.math
       (GeoPoint.lat very_close) (GeoPoint.lng very_close)
       (GeoPoint.lat goal) (GeoPoint.lng goal) < 5
  /\ Robot.navigation_loop ApproxMath.math
       [tick_very_close; tick_without_heading; tick_one_second_later] robot []
     = (Some true,
        Robot.set_is_navigating false (Robot.set_current_gps very_close robot),
        [Robot.Arrived]).
Proof.
  assert (Hdue : 2 <= Robot.now tick_very_close - Robot.last_update_time robot)
    by (vm_compute; discriminate).
  assert (Hnear : Robot.calculate_distance ApproxMath.math
                    (GeoPoint.lat very_close) (GeoPoint.lng very_close)
                    (GeoPoint.lat goal) (GeoPoint.lng goal) < 5)
    by (vm_compute; reflexivity).
  split; [reflexivity|]. split; [reflexivity|]. split; [reflexivity|].
  split; [exact Hdue|]. split; [exact Hnear|].
  exact (X20_arrival_ends_the_loop ApproxMath.math tick_very_close
           [tick_without_heading; tick_one_second_later] robot []
           very_close goal eq_refl eq_refl eq_refl Hdue Hnear).
Defined.

(** At the first waypoint the tick adds one message to the queue. *)
Lemma X10_witness :
  Voice.ready at_first_waypoint
  /\ (Voice.pending (Voice.provide_navigation_guidance ApproxMath.math offline
                       100 at_first_waypoint)
      = Voice.pending at_first_waypoint
      \/ exists said : string,
           Voice.pending (Voice.provide_navigation_guidance ApproxMath.math
                            offline 100 at_first_waypoint)
           = (Voice.pending at_first_waypoint ++ [said])%list
           \/ Voice.pending (Voice.provide_navigation_guidance ApproxMath.math
                               offline 100 at_first_waypoint)
              = [said]).
Proof.
  assert (Hr : Voice.ready at_first_waypoint) by (split; reflexivity).
  split; [exact Hr|].
  exact (X10_at_most_one_utterance_per_tick ApproxMath.math offline 100
           at_first_waypoint Hr).
Defined.

(** At the first waypoint the session stays active: the waypoints are kept
    and the index goes from 0 to 1, of 3. *)
Lemma X11_witness :
  Voice.navigation_active
    (Voice.provide_navigation_guidance ApproxMath.math offline 100
       at_first_waypoint) = true
  /\ (Voice.current_waypoint_index at_first_waypoint
      <= List.length (Voice.waypoints at_first_waypoint))%nat
  /\ Voice.waypoints
       (Voice.provide_navigation_guidance ApproxMath.math offline 100
          at_first_waypoint)
     = Voice.waypoints at_first_waypoint
  /\ Voice.current_waypoint_index
       (Voice.provide_navigation_guidance ApproxMath.math offline 100
          at_first_waypoint) = 1%nat
  /\ (Voice.current_waypoint_index
        (Voice.provide_navigation_guidance ApproxMath.math offline 100
           at_first_waypoint)
      <= List.length
           (Voice.waypoints
              (Voice.provide_navigation_guidance ApproxMath.math offline 100
                 at_first_waypoint)))%nat.
Proof.
  assert (Hactive : Voice.navigation_active
                      (Voice.provide_navigation_guidance ApproxMath.math
                         offline 100 at_first_waypoint) = true)
    by (vm_compute; reflexivity).
  assert (Hle : (Voice.current_waypoint_index at_first_waypoint
                 <= List.length (Voice.waypoints at_first_waypoint))%nat)
    by (vm_compute; lia).
  destruct (X11_progress_is_monotonic ApproxMath.math offline 100
              at_first_waypoint) as [_ [Hkeep Hbound]].
  destruct (Hkeep Hactive) as [Hw _].
  split; [exact Hactive|]. split; [exact Hle|]. split; [exact Hw|].
  split; [vm_compute; reflexivity | exact (Hbound Hle)].
Defined.

(** The session without route, its only waypoint passed: the next tick
    announces the arrival. *)
Lemma X12_witness :
  Voice.ready journey_done
  /\ Voice.navigation_active journey_done = true
  /\ Voice.waypoints journey_done <> []
  /\ (List.length (Voice.waypoints journey_done)
      <= Voice.current_waypoint_index journey_done)%nat
  /\ Voice.pending
       (Voice.provide_navigation_guidance ApproxMath.math offline 108
          journey_done)
     = ["Congratulations! You have reached your destination. Navigation complete."]
  /\ Voice.navigation_active
       (Voice.provide_navigation_guidance ApproxMath.math offline 108
          journey_done) = false.
Proof.
  assert (Hr : Voice.ready journey_done) by (split; vm_compute; reflexivity).
  assert (Hactive : Voice.navigation_active journey_done = true)
    by (vm_compute; reflexivity).
  assert (Hgps : Voice.current_gps journey_done
                 = Some {| GeoPoint.lat := 0; GeoPoint.lng := 1 # 1000 |})
    by (vm_compute; reflexivity).
  assert (Hne : Voice.waypoints journey_done <> [])
    by (vm_compute; discriminate).
  assert (Hdone : (List.length (Voice.waypoints journey_done)
                   <= Voice.current_waypoint_index journey_done)%nat)
    by (vm_compute; lia).
  destruct (X12_arrival_is_announced_once ApproxMath.math offline 108
              journey_done {| GeoPoint.lat := 0; GeoPoint.lng := 1 # 1000 |}
              Hr Hactive Hgps Hne Hdone) as [Hpend [Hoff _]].
  split; [exact Hr|]. split; [exact Hactive|]. split; [exact Hne|].
  split; [exact Hdone|]. split; [exact Hpend | exact Hoff].
Defined.


(** Stopping the session at the first waypoint leaves one message in the
    queue. *)
Lemma X14_witness :
  Voice.ready at_first_waypoint
  /\ exists v' : Voice.VoiceNavigator,
       Voice.stop_navigation (Some at_first_waypoint)
       = (Voice.StoppedResponse "Navigation stopped", Some v')
       /\ Voice.pending v' = ["Navigation stopped."]
       /\ Voice.navigation_active v' = false.
Proof.
  assert (Hr : Voice.ready at_first_waypoint) by (split; reflexivity).
  split; [exact Hr|].
  destruct (X14_stop_clears_session_and_queue ApproxMath.math offline
              at_first_waypoint Hr) as [v' [Hstop [Hpend [Hoff _]]]].
  exists v'. split; [exact Hstop|]. split; [exact Hpend | exact Hoff].
Defined.


(** Forced at time 100, 111 m from the first waypoint, the guidance says
    the off-route warning. *)
Lemma X16_witness :
  Voice.ready session_started
  /\ 50 < Voice.calculate_distance ApproxMath.math 0 0 (0 # 3) (3 # 3000)
  /\ 10 < 100
  /\ exists v' : Voice.VoiceNavigator,
       snd (Voice.test_navigation_guidance ApproxMath.math offline 100
              (Some session_started)) = Some v'
       /\ Voice.last_announcement_time v' = 100.
Proof.
  assert (Hr : Voice.ready session_started) by (split; reflexivity).
  assert (Hfar : 50 < Voice.calculate_distance ApproxMath.math
                        0 0 (0 # 3) (3 # 3000)) by (vm_compute; reflexivity).
  assert (Hclock : 10 < 100) by (vm_compute; reflexivity).
  destruct (proj2 (X16_forced_guidance ApproxMath.math offline 100
                     session_started)
              {| GeoPoint.lat := 0; GeoPoint.lng := 0 |}
              {| Waypoint.lat := 0 # 3; Waypoint.lng := 3 # 3000;
                 Waypoint.instruction := "Turn left at the gate";
                 Waypoint.index := 0 |}
              Hr eq_refl eq_refl eq_refl Hfar Hclock) as [v' [Hv' [_ Hlast]]].
  split; [exact Hr|]. split; [exact Hfar|]. split; [exact Hclock|].
  exists v'. split; [exact Hv' | exact Hlast].
Defined.

(** A current location on the equator is not taken: the navigator still
    has no position. *)
Lemma X17_witness :
  Voice.req_current_location request_from_equator = Some (Some 0, Some (80 # 1))
  /\ (0 == 0 \/ 80 # 1 == 0)
  /\ exists v' : Voice.VoiceNavigator,
       snd (Voice.start_navigation offline 5 request_from_equator
              (Some Voice.VoiceNavigator_init)) = Some v'
       /\ Voice.current_gps v' = None.
Proof.
  assert (Hzero : 0 == 0 \/ 80 # 1 == 0) by (left; reflexivity).
  split; [reflexivity|]. split; [exact Hzero|].
  exact (X17_zero_coordinate_location_is_ignored offline 5
           request_from_equator Voice.VoiceNavigator_init
           (72936 # 10000) (806428 # 10000) 0 (80 # 1)
           eq_refl eq_refl eq_refl Hzero).
Defined.

(** With the number 5 drawn, the request without route gets five
    waypoints. *)
Lemma X18_witness :
  Voice.req_route_instructions request_from_equator = []
  /\ (3 <= 5 <= 7)%nat
  /\ exists v' : Voice.VoiceNavigator,
       snd (Voice.start_navigation offline 5 request_from_equator
              (Some Voice.VoiceNavigator_init)) = Some v'
       /\ List.length (Voice.waypoints v') = 5%nat.
Proof.
  assert (Hrand : (3 <= 5 <= 7)%nat) by lia.
  destruct (X18_sample_route_when_none_given offline 5 request_from_equator
              Voice.VoiceNavigator_init (72936 # 10000) (806428 # 10000)
              eq_refl eq_refl eq_refl Hrand) as [v' [Hrun [_ [Hlen _]]]].
  split; [reflexivity|]. split; [exact Hrand|].
  exists v'. split; [rewrite Hrun; reflexivity | exact Hlen].
Defined.

(** A new navigator has no position: the three waypoints of [route] are all
    at the destination. *)
Lemma X19_witness :
  Voice.current_gps Voice.VoiceNavigator_init = None
  /\ Forall (fun w => Waypoint.lat w = 0 /\ Waypoint.lng w = 3 # 1000)
       (Voice.waypoints
          (Voice.set_destination offline 0 (3 # 1000) route
             Voice.VoiceNavigator_init))
  /\ List.length
       (Voice.waypoints
          (Voice.set_destination offline 0 (3 # 1000) route
             Voice.VoiceNavigator_init)) = 3%nat.
Proof.
  split; [reflexivity|].
  exact (X19_waypoints_without_position offline 0 (3 # 1000) route
           Voice.VoiceNavigator_init eq_refl).
Defined.

(** An idle robot and a new navigator: the request starts the thread and a
    session with one waypoint. *)
Lemma X21_witness :
  Robot.is_navigating Robot.init = false
  /\ Voice.ready Voice.VoiceNavigator_init
  /\ exists v' : Voice.VoiceNavigator,
       Backend.robot_navigate_to offline (Some 7) (Some 80) Robot.init
         (Some Voice.VoiceNavigator_init)
       = (Backend.NavigateStarted {| GeoPoint.lat := 7; GeoPoint.lng := 80 |},
          Some (7, 80), Some v')
       /\ List.length (Voice.waypoints v') = 1%nat
       /\ List.length (Voice.pending v') = 2%nat.
Proof.
  assert (Hr : Voice.ready Voice.VoiceNavigator_init) by (split; reflexivity).
  destruct (proj2 (proj2 (X21_robot_navigate_to offline (Some 7) (Some 80)
                            Robot.init (Some Voice.VoiceNavigator_init)))
              7 80 Voice.VoiceNavigator_init eq_refl eq_refl eq_refl eq_refl Hr)
    as [v' [Hrun [_ [Hw Hp]]]].
  split; [reflexivity|]. split; [exact Hr|].
  exists v'. split; [exact Hrun|]. split; [rewrite Hw; reflexivity | exact Hp].
Defined.

(** The session without route, started at its destination: the first tick
    says that the destination is near, the second one announces the
    arrival. *)
Lemma X22_witness :
  Voice.ready direct_session
  /\ Voice.calculate_distance ApproxMath.math 0 (1 # 1000) 0 (1 # 1000) < 20
  /\ Voice.pending
       (Voice.provide_navigation_guidance ApproxMath.math offline 108
          (Voice.set_current_location 0 (1 # 1000) journey_done))
     = ["Congratulations! You have reached your destination. Navigation complete."]
  /\ Voice.navigation_active
       (Voice.provide_navigation_guidance ApproxMath.math offline 108
          (Voice.set_current_location 0 (1 # 1000) journey_done)) = false.
Proof.
  assert (Hr : Voice.ready direct_session) by (split; reflexivity).
  assert (Hnear : Voice.calculate_distance ApproxMath.math
                    0 (1 # 1000) 0 (1 # 1000) < 20)
    by (vm_compute; reflexivity).
  destruct (X22_last_waypoint_then_arrival ApproxMath.math offline 100 108
              0 (1 # 1000) direct_session
              {| GeoPoint.lat := 0; GeoPoint.lng := 1 # 1000 |}
              {| Waypoint.lat := 0; Waypoint.lng := 1 # 1000;
                 Waypoint.instruction := "Arrive at destination";
                 Waypoint.index := 0 |}
              Hr eq_refl eq_refl eq_refl eq_refl Hnear)
    as [_ [_ [Hpend Hoff]]].
  split; [exact Hr|]. split; [exact Hnear|].
  split; [exact Hpend | exact Hoff].
Defined.

(** 355 degrees is within 11.25 degrees of 16 * 22.5 = 360: "north". *)
Lemma X23_witness :
  Qabs (355 - inject_Z 16 * (45 # 2)) < 45 # 4
  /\ Voice.bearing_to_direction 355 = "north".
Proof.
  assert (Hnear : Qabs (355 - inject_Z 16 * (45 # 2)) < 45 # 4)
    by (vm_compute; reflexivity).
  split; [exact Hnear|].
  exact (proj2 (proj2 (X23_sixteen_point_sectors 355 16 Hnear)) eq_refl).
Defined.

(** 350 degrees is within 22.5 degrees of 8 * 45 = 360: "North". *)
Lemma X24_witness :
  Qabs (350 - inject_Z 8 * 45) < 45 # 2
  /\ Home.bearing_to_direction 350 = "North".
Proof.
  assert (Hnear : Qabs (350 - inject_Z 8 * 45) < 45 # 2)
    by (vm_compute; reflexivity).
  split; [exact Hnear|].
  exact (proj2 (proj2 (X24_eight_point_sectors 350 8 Hnear)) eq_refl).
Defined.

(** 33.75 degrees, between sectors 1 and 2, goes to sector 2. *)
Lemma X25_witness :
  135 # 4 == (inject_Z 1 + (1 # 2)) * (45 # 2)
  /\ Voice.direction_index (135 # 4) = 2%Z.
Proof.
  assert (Hb : 135 # 4 == (inject_Z 1 + (1 # 2)) * (45 # 2)) by reflexivity.
  split; [exact Hb|].
  exact (proj1 (X25_sector_boundaries_go_to_even (135 # 4) 1 Hb)).
Defined.

(** An instruction of three letters, none of them [<] *)
Lemma X26_witness :
  (forall n : nat, String.get n "Go!" <> Some "<"%char)
  /\ Voice.clean "Go!" = "Go!".
Proof.
  assert (Hno : forall n : nat, String.get n "Go!" <> Some "<"%char).
  { intros n. do 3 (destruct n as [|n]; [discriminate|]). discriminate. }
  split; [exact Hno|].
  exact (X26_clean_keeps_plain_instructions "Go!" Hno).
Defined.

(** A new navigator is ready, and still is after a session is stopped. *)
Lemma X27_witness :
  Voice.ready Voice.VoiceNavigator_init
  /\ forall v' : Voice.VoiceNavigator,
       snd (Voice.stop_navigation (Some Voice.VoiceNavigator_init)) = Some v' ->
       Voice.ready v'.
Proof.
  assert (Hr : Voice.ready Voice.VoiceNavigator_init) by (split; reflexivity).
  split; [exact Hr|].
  exact (proj1 (proj2 (proj2 (X27_endpoints_keep_audio_ready
                                ApproxMath.math offline 3
                                request_from_equator 100 None None
                                Voice.VoiceNavigator_init Hr)))).
Defined.

(** Three messages queued, two turns of the worker: the first two are
    spoken, in their order, and the third one waits. *)
Lemma X28_witness :
  Forall (fun msg => (String.length msg =? 0)%nat = false)
    ["Turn left"; "Go on"; "Stop"]
  /\ fst (Voice.audio_worker_turns 2
            (fold_left (fun a msg => Voice.speak msg a)
               ["Turn left"; "Go on"; "Stop"] (Voice.AudioSystem_init true)))
     = ["Turn left"; "Go on"]
  /\ Voice.items
       (Voice.audio_queue
          (snd (Voice.audio_worker_turns 2
                  (fold_left (fun a msg => Voice.speak msg a)
                     ["Turn left"; "Go on"; "Stop"]
                     (Voice.AudioSystem_init true)))))
     = ["Stop"].
Proof.
  assert (Hall : Forall (fun msg => (String.length msg =? 0)%nat = false)
                   ["Turn left"; "Go on"; "Stop"])
    by (repeat constructor).
  split; [exact Hall|].
  exact (X28_messages_are_spoken_in_order ["Turn left"; "Go on"; "Stop"] 2
           (Voice.AudioSystem_init true) eq_refl eq_refl eq_refl Hall).
Defined.

End MoreRuns.
